(** * Prediction: accuracy metrics of a fitted array against a real array

    A shallow embedding of [predictions/prediction.py]: the classes
    [Prediction], [NumericPrediction] and [BinaryPrediction], their
    construction checks and their metric accessors, followed by the
    properties of the specification that hold (or fail) on them.

    Conventions of the embedding.
    - A Python call either returns or raises: [result].
    - A numpy array or pandas Series is the list of its values together with
      its container kind; a Series is taken with its default positional
      index, where label alignment and position coincide.
    - The element type of an array (numpy's dtype) is a type class: [DType]
      gives [==], [Numeric] adds [-], [** 2], [abs] and [<=].  The
      instances are [int64] (what [np.array] makes of a list of Python ints,
      with its wrap-around), [float64] (IEEE binary64, as primitive floats),
      [str] (labels) and [object] (plain Python objects).
    - A quotient of two counts, which numpy returns as a float64, is kept as
      an exact rational ([quotient]); its rounding is not modelled. *)

From Stdlib Require Import ZArith QArith String Ascii Floats Lia.
From stdpp Require Import base list strings pretty.

(* A decimal literal denotes the nearest binary64 value, as in Python. *)
#[local] Set Warnings "-inexact-float".

Local Open Scope nat_scope.

(** ** Python results *)

Inductive exn : Type :=
  | ValueError (msg : string)
  | TypeError
  | IndexError
  | KeyError
  | AttributeError.

Inductive result (T : Type) : Type :=
  | Ok (v : T)
  | Raise (e : exn).
Arguments Ok {T} v.
Arguments Raise {T} e.

Definition bind {T U : Type} (r : result T) (k : T -> result U) : result U :=
  match r with
  | Ok v => k v
  | Raise e => Raise e
  end.

Notation "'let*' x ':=' r 'in' k" := (bind r (fun x => k))
  (at level 10, x name, r at level 100, k at level 200).

Definition raises {T : Type} (r : result T) : Prop :=
  exists e, r = Raise e.

(** ** Element types *)

(** [np_equal] is the elementwise [==] of the dtype; [!=] is its negation. *)
Class DType (A : Type) : Type := {
  np_equal : A -> A -> bool;
  np_equal_sym : forall x y, np_equal x y = np_equal y x
}.

Definition np_not_equal {A : Type} `{DType A} (x y : A) : bool :=
  negb (np_equal x y).

(** The arithmetic of a numeric dtype.  [np_square x] is [x ** 2]; the
    tolerance of [matches] is taken as a scalar of the array's own dtype. *)
Class Numeric (A : Type) `{DType A} : Type := {
  np_subtract : A -> A -> A;
  np_square : A -> A;
  np_absolute : A -> A;
  np_less_equal : A -> A -> bool
}.

(** *** int64 *)

Module int64.
Local Open Scope Z_scope.

Definition min_value : Z := - 2 ^ 63.
Definition max_value : Z := 2 ^ 63 - 1.

Definition in_range (z : Z) : Prop := min_value <= z <= max_value.

(** Two's complement wrap-around of an exact result. *)
Definition wrap (z : Z) : Z := (z + 2 ^ 63) mod 2 ^ 64 - 2 ^ 63.

Definition sub (x y : Z) : Z := wrap (x - y).
Definition square (x : Z) : Z := wrap (x * x).
Definition absolute (x : Z) : Z := wrap (Z.abs x).
End int64.

#[export] Instance int64_dtype : DType Z :=
  {| np_equal := Z.eqb; np_equal_sym := Z.eqb_sym |}.

#[export] Instance int64_numeric : Numeric Z :=
  {| np_subtract := int64.sub;
     np_square := int64.square;
     np_absolute := int64.absolute;
     np_less_equal := Z.leb |}.

(** *** float64 *)

Module float64.
Definition eqb (x y : float) : bool := PrimFloat.eqb x y.
Definition sub (x y : float) : float := PrimFloat.sub x y.
Definition square (x : float) : float := PrimFloat.mul x x.
Definition absolute (x : float) : float := PrimFloat.abs x.
Definition leb (x y : float) : bool := PrimFloat.leb x y.

End float64.

(** [==] on binary64 is symmetric: it is decided on the two operands'
    comparison, which is antisymmetric. *)
#[export, refine] Instance float64_dtype : DType float :=
  {| np_equal := float64.eqb |}.
Proof.
  assert (Hsym : forall f g : spec_float, SFeqb f g = SFeqb g f).
  { intros f g. unfold SFeqb.
    destruct f as [sf | sf | | sf mf ef], g as [sg | sg | | sg mg eg];
      try reflexivity; try (destruct sf; reflexivity);
      try (destruct sg; reflexivity); try (destruct sf, sg; reflexivity).
    unfold SFcompare. rewrite !Pos.compare_cont_spec. simpl.
    rewrite (Z.compare_antisym ef eg), (Pos.compare_antisym mf mg).
    destruct sf, sg; try reflexivity;
      destruct (ef ?= eg)%Z; simpl; try reflexivity;
      destruct (mf ?= mg)%positive; reflexivity. }
  intros x y. unfold float64.eqb. rewrite !FloatAxioms.eqb_spec. apply Hsym.
Defined.

#[export] Instance float64_numeric : Numeric float :=
  {| np_subtract := float64.sub;
     np_square := float64.square;
     np_absolute := float64.absolute;
     np_less_equal := float64.leb |}.

(** *** True division *)

(** What [as_dataframe] of a numeric prediction needs besides: the default
    tolerance [0.0] of [matches] as the dtype compares against it, and [/],
    numpy's true division, whose quotient is a float64 for both numeric
    instances. *)
Class TrueDivide (A : Type) `{Numeric A} : Type := {
  np_default_tolerance : A;
  np_true_divide : A -> A -> float
}.

(** The binary64 nearest to an integer (ties to even): the cast numpy
    applies to an int64 before it divides. *)
Definition int64_to_float64 (z : Z) : float :=
  SF2Prim (binary_normalize prec emax z 0 false).

#[export] Instance int64_true_divide : TrueDivide Z :=
  {| np_default_tolerance := 0%Z;
     np_true_divide := fun x y =>
       PrimFloat.div (int64_to_float64 x) (int64_to_float64 y) |}.

#[export] Instance float64_true_divide : TrueDivide float :=
  {| np_default_tolerance := 0%float;
     np_true_divide := PrimFloat.div |}.

(** *** str *)

(** Categorical data: labels compared by string equality. *)
#[export] Instance str_dtype : DType string :=
  {| np_equal := String.eqb; np_equal_sym := String.eqb_sym |}.

(** *** object *)

(** An array of dtype object holds plain Python objects, not numpy
    scalars: here ints of any size, strings and [None], compared by
    Python's [==].  It is what [np.array] makes of a list that no scalar
    dtype can hold (an int beyond 64 bits, a [None] among the values), and
    what a caller passes as [np.array(..., dtype=object)]. *)
Inductive pyobject : Type :=
  | PyInt (z : Z)
  | PyStr (s : string)
  | PyNone.

Definition pyobject_eqb (x y : pyobject) : bool :=
  match x, y with
  | PyInt a, PyInt b => Z.eqb a b
  | PyStr s, PyStr t => String.eqb s t
  | PyNone, PyNone => true
  | _, _ => false
  end.

#[export, refine] Instance object_dtype : DType pyobject :=
  {| np_equal := pyobject_eqb |}.
Proof.
  intros [a | s |] [b | t |]; simpl; try reflexivity;
    [apply Z.eqb_sym | apply String.eqb_sym].
Defined.

(** *** Entries of an array *)

(** [x.copy()] on an entry [x] indexed out of an ndarray.  The entries of an
    int64, float64 or str array are numpy scalars, whose [copy] returns the
    scalar; the entries of an object array are the Python objects
    themselves, and a Python int, str or [None] has no attribute [copy]. *)
Class ArrayEntry (A : Type) : Type := {
  entry_copy : A -> result A
}.

#[export] Instance int64_entry : ArrayEntry Z := {| entry_copy := Ok |}.
#[export] Instance float64_entry : ArrayEntry float := {| entry_copy := Ok |}.
#[export] Instance str_entry : ArrayEntry string := {| entry_copy := Ok |}.
#[export] Instance object_entry : ArrayEntry pyobject :=
  {| entry_copy := fun _ => Raise AttributeError |}.

(** ** Arrays *)

Section Arrays.
Context {A : Type}.

(** What an object holds once it is built. *)
Inductive array : Type :=
  | NdArray (values : list A)
  | Series (values : list A).

(** What a caller may pass: a Python list, or an array. *)
Inductive arraylike : Type :=
  | PyList (values : list A)
  | PyArray (a : array).

Definition values_of (a : array) : list A :=
  match a with
  | NdArray l => l
  | Series l => l
  end.

(** [len(x)] *)
Definition len (x : arraylike) : nat :=
  match x with
  | PyList l => length l
  | PyArray a => length (values_of a)
  end.

Definition is_ndarray (a : array) : bool :=
  match a with
  | NdArray _ => true
  | Series _ => false
  end.
End Arrays.
Arguments array A : clear implicits.
Arguments arraylike A : clear implicits.

(** ** Boolean masks and counts *)

(** The outcome of a comparison: an elementwise mask when an array takes
    part, a plain Python [bool] otherwise (as in [None == 1]). *)
Inductive mask : Type :=
  | MaskArray (bits : list bool)
  | MaskBool (b : bool).

(** numpy's broadcasting of a binary operator over one-dimensional shapes:
    equal lengths go elementwise, a length-one operand is stretched, any
    other pair of shapes is refused.  A constructed object only ever holds
    equal lengths, so the metrics below stay in the first case. *)
Definition broadcast {X Y Z : Type} (f : X -> Y -> Z)
    (xs : list X) (ys : list Y) : result (list Z) :=
  if length xs =? length ys then Ok (zip_with f xs ys)
  else match xs, ys with
       | [x], _ => Ok (map (f x) ys)
       | _, [y] => Ok (map (fun x => f x y) xs)
       | _, _ => Raise (ValueError "operands could not be broadcast together")
       end.

Definition mask_binop (f : bool -> bool -> bool) (m1 m2 : mask) : result mask :=
  match m1, m2 with
  | MaskArray l1, MaskArray l2 =>
      let* l := broadcast f l1 l2 in Ok (MaskArray l)
  | MaskArray l1, MaskBool b => Ok (MaskArray (map (fun x => f x b) l1))
  | MaskBool b, MaskArray l2 => Ok (MaskArray (map (f b) l2))
  | MaskBool b1, MaskBool b2 => Ok (MaskBool (f b1 b2))
  end.

(** [m1 & m2] and [m1 | m2] *)
Definition mask_and : mask -> mask -> result mask := mask_binop andb.
Definition mask_or : mask -> mask -> result mask := mask_binop orb.

(** [m.sum()]: [True] counts for one and [False] for zero; a Python [bool]
    has no [sum]. *)
Definition count_true (bits : list bool) : nat :=
  sum_list (map Nat.b2n bits).

Definition mask_sum (m : mask) : result nat :=
  match m with
  | MaskArray l => Ok (count_true l)
  | MaskBool _ => Raise AttributeError
  end.

(** [a[m]] for a boolean mask [m]: the entries of [a] where [m] is [True]. *)
Definition boolean_index {A : Type} (l : list A) (m : list bool) : list A :=
  map fst (List.filter snd (zip l m)).

(** ** Quotients of counts *)

Inductive quotient : Type :=
  | Nan
  | Infinite
  | Finite (q : Q).

(** [k / n] on two counts, as numpy's true division: [0 / 0] is NaN and
    [k / 0] is infinite, neither raises. *)
Definition true_divide (k n : nat) : quotient :=
  match n with
  | O => if k =? 0 then Nan else Infinite
  | S _ => Finite (Z.of_nat k # Pos.of_nat n)
  end.

(** [np.mean] of a boolean array. *)
Definition np_mean (bits : list bool) : quotient :=
  true_divide (count_true bits) (length bits).

(** ** Data frames *)

(** A cell of a [pd.DataFrame]: a value of the data, a boolean, a float64
    quotient, or [None]. *)
Inductive cell (A : Type) : Type :=
  | Value (a : A)
  | Flag (b : bool)
  | Float64 (x : float)
  | NoneCell.
Arguments Value {A} a.
Arguments Flag {A} b.
Arguments Float64 {A} x.
Arguments NoneCell {A}.

(** A value of the dict handed to [pd.DataFrame]: a column, or a scalar. *)
Inductive entry (A : Type) : Type :=
  | Column (cells : list (cell A))
  | Scalar (c : cell A).
Arguments Column {A} cells.
Arguments Scalar {A} c.

(** The named columns, in the order of the dict, over a positional index. *)
Definition DataFrame (A : Type) : Type := list (string * list (cell A)).

Definition column_length {A : Type} (e : entry A) : option nat :=
  match e with
  | Column cells => Some (length cells)
  | Scalar _ => None
  end.

Definition fill {A : Type} (n : nat) (e : entry A) : list (cell A) :=
  match e with
  | Column cells => cells
  | Scalar c => repeat c n
  end.

(** [pd.DataFrame(data)] for a dict [data]: the columns must agree in
    length, a scalar is repeated down the rows, and a dict of scalars alone
    has no index to be repeated over. *)
Definition pd_DataFrame {A : Type} (data : list (string * entry A))
    : result (DataFrame A) :=
  match omap (fun item => column_length (snd item)) data with
  | [] => Raise (ValueError "If using all scalar values, you must pass an index")
  | n :: lengths =>
      if forallb (Nat.eqb n) lengths
      then Ok (map (fun item => (fst item, fill n (snd item))) data)
      else Raise (ValueError "All arrays must be of the same length")
  end.

(** Row [i] of a frame: the cell of every column at [i]. *)
Definition row {A : Type} (frame : DataFrame A) (i : nat)
    : list (string * option (cell A)) :=
  map (fun column => (fst column, snd column !! i)) frame.

(** ** class Prediction *)

Record Prediction (A : Type) : Type := {
  fitted_values : array A;
  real_values : option (array A)
}.
Arguments fitted_values {A} _.
Arguments real_values {A} _.

Definition newline : string := String (ascii_of_nat 10) EmptyString.

Module Prediction.
Section Methods.
Context {A : Type} `{DType A}.

Definition length_mismatch_message (len_fit len_real : nat) : string :=
  "Fitted values and real values must have the same length." +:+ newline
  +:+ "Fitted values has length: " +:+ pretty len_fit +:+ "." +:+ newline
  +:+ "Real values has length: " +:+ pretty len_real +:+ ".".

(** Check that fitted values and real values have the same length. *)
Definition _check_lengths_match
    (fitted_values : arraylike A) (real_values : option (arraylike A))
    : result unit :=
  match real_values with
  | None => Ok tt
  | Some real =>
      let len_fit := len fitted_values in
      let len_real := len real in
      if negb (len_fit =? len_real)
      then Raise (ValueError (length_mismatch_message len_fit len_real))
      else Ok tt
  end.

(** [np.array(x)] on a list; an array or a Series is kept as it is. *)
Definition list_to_nparray (x : arraylike A) : array A :=
  match x with
  | PyList l => NdArray l
  | PyArray a => a
  end.

(** Turn lists into numpy arrays. *)
Definition _lists_to_nparray
    (fitted_values : arraylike A) (real_values : option (arraylike A))
    : Prediction A :=
  {| fitted_values := list_to_nparray fitted_values;
     real_values := option_map list_to_nparray real_values |}.

Definition __init__
    (fitted_values : arraylike A) (real_values : option (arraylike A))
    : result (Prediction A) :=
  let* _ := _check_lengths_match fitted_values real_values in
  Ok (_lists_to_nparray fitted_values real_values).

(** [__len__] *)
Definition __len__ (self : Prediction A) : nat :=
  length (values_of (fitted_values self)).

(** [real == fitted] on the stored fields.  Against [None] numpy compares
    every entry with [None], which is [False] throughout. *)
Definition real_equals_fitted (self : Prediction A) : result (list bool) :=
  match real_values self with
  | Some real =>
      broadcast np_equal (values_of real) (values_of (fitted_values self))
  | None => Ok (map (fun _ => false) (values_of (fitted_values self)))
  end.

(** The percent of items which are equal between the real and the fitted
    values. *)
Definition percentage_correctly_classified (self : Prediction A)
    : result quotient :=
  let* equal := real_equals_fitted self in
  Ok (np_mean equal).

(** The alias: the same property object under a second name. *)
Definition pcc : Prediction A -> result quotient :=
  percentage_correctly_classified.

(** A boolean array of length N with [True] where fitted value is equal to
    real value. *)
Definition matches (self : Prediction A) : result (list bool) :=
  real_equals_fitted self.

(** A stored field as a value of the dict: its values, or the scalar
    [None]. *)
Definition field_entry (field : option (array A)) : entry A :=
  match field with
  | Some a => Column (map Value (values_of a))
  | None => Scalar NoneCell
  end.

(** The prediction as a dataframe.  [self.matches()] is the one call in the
    dict that can raise; the method is the one of this class for a
    [Prediction] and for a [BinaryPrediction], which inherits both. *)
Definition as_dataframe (self : Prediction A) : result (DataFrame A) :=
  let* prediction_matches := matches self in
  pd_DataFrame
    [("Fitted Values"%string, field_entry (Some (fitted_values self)));
     ("Real Values"%string, field_entry (real_values self));
     ("Prediction Matches"%string, Column (map Flag prediction_matches))].

End Methods.
End Prediction.

(** ** class NumericPrediction(Prediction) *)

Module NumericPrediction.
Section Methods.
Context {A : Type} `{Numeric A}.

(** Inherited unchanged from [Prediction]. *)
Definition __init__ := @Prediction.__init__ A.
Definition percentage_correctly_classified :=
  @Prediction.percentage_correctly_classified A _.
Definition pcc := @Prediction.pcc A _.

(** [real - fitted] on the stored fields.  [None - array] subtracts entry by
    entry and is a type error at the first entry; over no entries at all it
    returns the empty array. *)
Definition real_minus_fitted (self : Prediction A) : result (list A) :=
  match real_values self with
  | Some real =>
      broadcast np_subtract (values_of real) (values_of (fitted_values self))
  | None =>
      match values_of (fitted_values self) with
      | [] => Ok []
      | _ :: _ => Raise TypeError
      end
  end.

(** The difference between the real values and the fitted values. *)
Definition residuals (self : Prediction A) (squared absolute_value : bool)
    : result (list A) :=
  let* residuals := real_minus_fitted self in
  if squared then Ok (map np_square residuals)
  else if absolute_value then Ok (map np_absolute residuals)
  else Ok residuals.

(** Overrides [Prediction.matches]. *)
Definition matches (self : Prediction A) (tolerance : A) : result (list bool) :=
  let* difference := real_minus_fitted self in
  Ok (map (fun d => np_less_equal (np_absolute d) tolerance) difference).

End Methods.

Section Frames.
Context {A : Type} `{TrueDivide A}.

(** [residuals / real] on the stored field.  Against [None] the division
    goes entry by entry like the subtraction: a type error at the first
    entry, the empty array over none. *)
Definition divided_by_real (residuals : list A) (self : Prediction A)
    : result (list float) :=
  match real_values self with
  | Some real => broadcast np_true_divide residuals (values_of real)
  | None =>
      match residuals with
      | [] => Ok []
      | _ :: _ => Raise TypeError
      end
  end.

(** Overrides [Prediction.as_dataframe]; [residuals()] and [matches()] are
    called with their defaults. *)
Definition as_dataframe (self : Prediction A) : result (DataFrame A) :=
  let* residuals := residuals self false false in
  let* prediction_matches := matches self np_default_tolerance in
  let* relative := divided_by_real residuals self in
  pd_DataFrame
    [("Fitted Values"%string, Prediction.field_entry (Some (fitted_values self)));
     ("Real Values"%string, Prediction.field_entry (real_values self));
     ("Prediction Matches"%string, Column (map Flag prediction_matches));
     ("Absolute difference"%string, Column (map Value residuals));
     ("Relative difference"%string, Column (map Float64 relative))].

End Frames.
End NumericPrediction.

(** ** class BinaryPrediction(Prediction) *)

Record BinaryPrediction (A : Type) : Type := {
  base :> Prediction A;
  value_positive : A
}.
Arguments base {A} _.
Arguments value_positive {A} _.

(** The 2x2 table of counts, row by row. *)
Definition matrix : Type := list (list nat).

Module BinaryPrediction.
Section Methods.
Context {A : Type} `{DType A}.

(** [super().__init__(fitted_values, real_values)], then the positive value
    is stored as it is.  The default [value_positive=1] is the caller's to
    pass: it exists only for dtypes that have a 1. *)
Definition __init__
    (fitted_values : arraylike A) (real_values : option (arraylike A))
    (value_positive : A) : result (BinaryPrediction A) :=
  let* self := Prediction.__init__ fitted_values real_values in
  Ok {| base := self; value_positive := value_positive |}.

(** [a == v] and [a != v] for a stored field [a] and a scalar [v].  The
    fitted values are always an array; the real values may be [None], and
    [None == v] is the Python [False]. *)
Definition equal_to (a : array A) (v : A) : mask :=
  MaskArray (map (fun x => np_equal x v) (values_of a)).

Definition not_equal_to (a : array A) (v : A) : mask :=
  MaskArray (map (fun x => np_not_equal x v) (values_of a)).

Definition real_equal_to (real : option (array A)) (v : A) : mask :=
  match real with
  | Some a => equal_to a v
  | None => MaskBool false
  end.

Definition real_not_equal_to (real : option (array A)) (v : A) : mask :=
  match real with
  | Some a => not_equal_to a v
  | None => MaskBool true
  end.

(** On an ndarray the first other entry is indexed out and copied,
    [other_only[0].copy()]; on a Series it is looked up after the index is
    reset and returned as it is. *)
Definition value_negative `{ArrayEntry A} (self : BinaryPrediction A) : result A :=
  match real_values self with
  | None => Raise TypeError
  | Some real =>
      let other_only :=
        boolean_index (values_of real)
          (map (fun x => np_not_equal x (value_positive self)) (values_of real)) in
      if is_ndarray real then
        match other_only with
        | x :: _ => entry_copy x
        | [] => Raise IndexError
        end
      else
        match other_only with
        | x :: _ => Ok x
        | [] => Raise KeyError
        end
  end.

Definition false_positive_rate (self : BinaryPrediction A) : result quotient :=
  let pred_pos := equal_to (fitted_values self) (value_positive self) in
  let real_neg := real_not_equal_to (real_values self) (value_positive self) in
  let* false_positive := mask_and pred_pos real_neg in
  let* numerator := mask_sum false_positive in
  let* denominator := mask_sum real_neg in
  Ok (true_divide numerator denominator).

Definition false_negative_rate (self : BinaryPrediction A) : result quotient :=
  let pred_neg := not_equal_to (fitted_values self) (value_positive self) in
  let real_pos := real_equal_to (real_values self) (value_positive self) in
  let* false_negative := mask_and pred_neg real_pos in
  let* numerator := mask_sum false_negative in
  let* denominator := mask_sum real_pos in
  Ok (true_divide numerator denominator).

Definition sensitivity (self : BinaryPrediction A) : result quotient :=
  let pred_pos := equal_to (fitted_values self) (value_positive self) in
  let real_pos := real_equal_to (real_values self) (value_positive self) in
  let* caught_positive := mask_and pred_pos real_pos in
  let* numerator := mask_sum caught_positive in
  let* either := mask_or pred_pos real_pos in
  let* denominator := mask_sum either in
  Ok (true_divide numerator denominator).

Definition specificity (self : BinaryPrediction A) : result quotient :=
  let pred_neg := not_equal_to (fitted_values self) (value_positive self) in
  let real_neg := real_not_equal_to (real_values self) (value_positive self) in
  let* caught_negative := mask_and pred_neg real_neg in
  let* numerator := mask_sum caught_negative in
  let* either := mask_or pred_neg real_neg in
  let* denominator := mask_sum either in
  Ok (true_divide numerator denominator).

(** [(m1 & m2).sum()] *)
Definition count_both (m1 m2 : mask) : result nat :=
  let* both := mask_and m1 m2 in mask_sum both.

(** The function ends after [if not as_dataframe: return conf]: with
    [as_dataframe] set it falls off its end, and the call returns [None]. *)
Definition confusion_matrix (self : BinaryPrediction A) (as_dataframe : bool)
    : result (option matrix) :=
  let pred_pos := equal_to (fitted_values self) (value_positive self) in
  let pred_neg := not_equal_to (fitted_values self) (value_positive self) in
  let real_pos := real_equal_to (real_values self) (value_positive self) in
  let real_neg := real_not_equal_to (real_values self) (value_positive self) in
  let* neg_neg := count_both pred_neg real_neg in
  let* pos_neg := count_both pred_pos real_neg in
  let* neg_pos := count_both pred_neg real_pos in
  let* pos_pos := count_both pred_pos real_pos in
  let conf := [[neg_neg; pos_neg]; [neg_pos; pos_pos]] in
  if negb as_dataframe then Ok (Some conf) else Ok None.

End Methods.
End BinaryPrediction.

(** ** Vocabulary of the specification *)

(** The number of indices [i < n] at which [P] holds. *)
Definition count_indices (n : nat) (P : nat -> bool) : nat :=
  length (List.filter P (seq 0 n)).

(** [s] occurs in [t]. *)
Definition contains (s t : string) : Prop :=
  exists before after, t = before +:+ s +:+ after.

Definition quotient_lt (a b : quotient) : Prop :=
  match a, b with
  | Finite x, Finite y => (x < y)%Q
  | _, _ => False
  end.

Definition in_unit_interval (a : quotient) : Prop :=
  match a with
  | Finite x => (0 <= x)%Q /\ (x <= 1)%Q
  | _ => False
  end.

Section Vocabulary.
Context {A : Type} `{DType A}.

(** [self] holds the aligned sequences [fitted] and [real], of one length. *)
Definition over (self : Prediction A) (fitted real : list A) : Prop :=
  values_of (fitted_values self) = fitted /\
  option_map values_of (real_values self) = Some real /\
  length fitted = length real.

(** [self] holds [fitted] and no real values. *)
Definition without_real (self : Prediction A) (fitted : list A) : Prop :=
  values_of (fitted_values self) = fitted /\ real_values self = None.

(** The values a caller passes, whatever their container. *)
Definition items (x : arraylike A) : list A :=
  match x with
  | PyList l => l
  | PyArray a => values_of a
  end.

(** [fitted[i] == real[i]], for [i] within both sequences. *)
Definition equal_at (fitted real : list A) (i : nat) : bool :=
  match fitted !! i, real !! i with
  | Some f, Some r => np_equal f r
  | _, _ => false
  end.

(** The class partition of a binary prediction over [fitted] and [real]:
    [pred_pos[i] = fitted[i] == value_positive], [pred_neg = !pred_pos],
    [real_pos[i] = real[i] == value_positive], [real_neg = !real_pos]. *)
Definition is_positive (values : list A) (value_positive : A) (i : nat) : bool :=
  match values !! i with
  | Some x => np_equal x value_positive
  | None => false
  end.

Definition is_negative (values : list A) (value_positive : A) (i : nat) : bool :=
  negb (is_positive values value_positive i).

End Vocabulary.

(** The one form a call of [residuals] returns, entry by entry. *)
Definition residual_form {A : Type} `{Numeric A}
    (squared absolute_value : bool) (r f : A) : A :=
  if squared then np_square (np_subtract r f)
  else if absolute_value then np_absolute (np_subtract r f)
  else np_subtract r f.

(** int64 data on which no residual [real[i] - fitted[i]] has the magnitude
    [2 ^ 63], the one at which int64 [abs] overflows. *)
Definition int64_exact (fitted real : list Z) : Prop :=
  Forall2 (fun f r => int64.in_range f /\ int64.in_range r /\
                      Z.abs (r - f) <> (2 ^ 63)%Z) fitted real.

(** The caller passed a pandas Series. *)
Definition passed_as_series {A : Type} (x : arraylike A) : bool :=
  match x with
  | PyArray (Series _) => true
  | _ => false
  end.

(** The quotient is a number equal to 1, or to 0. *)
Definition is_one (a : quotient) : Prop :=
  match a with
  | Finite x => (x == 1)%Q
  | _ => False
  end.

Definition is_zero (a : quotient) : Prop :=
  match a with
  | Finite x => (x == 0)%Q
  | _ => False
  end.

(** * Properties *)

(** ** Results *)

Lemma bind_Ok {T U : Type} (v : T) (k : T -> result U) :
  bind (Ok v) k = k v.
Proof. reflexivity. Qed.

Lemma raises_Raise {T : Type} (e : exn) : raises (@Raise T e).
Proof. exists e. reflexivity. Qed.

Lemma raises_not_Ok {T : Type} (r : result T) (v : T) : raises r -> r <> Ok v.
Proof. intros [e ->]. discriminate. Qed.

(** ** Counting *)

Lemma count_true_nil : count_true [] = 0.
Proof. reflexivity. Qed.

Lemma count_true_cons (b : bool) (l : list bool) :
  count_true (b :: l) = Nat.b2n b + count_true l.
Proof. reflexivity. Qed.

Lemma count_true_app (l k : list bool) :
  count_true (l ++ k) = count_true l + count_true k.
Proof.
  induction l as [| b l IH]; [reflexivity |].
  simpl. rewrite !count_true_cons, IH. lia.
Qed.

Lemma count_true_le_length (l : list bool) : count_true l <= length l.
Proof.
  induction l as [| b l IH]; [reflexivity |].
  rewrite count_true_cons. destruct b; simpl; lia.
Qed.

Lemma count_true_all_false {X : Type} (l : list X) :
  count_true (map (fun _ => false) l) = 0.
Proof. induction l as [| x l IH]; [reflexivity | exact IH]. Qed.

Lemma count_indices_S (n : nat) (P : nat -> bool) :
  count_indices (S n) P = count_indices n P + Nat.b2n (P n).
Proof.
  unfold count_indices. rewrite seq_S, List.filter_app, length_app.
  simpl. destruct (P n); reflexivity.
Qed.

Lemma count_indices_ext (n : nat) (P Q : nat -> bool) :
  (forall i, i < n -> P i = Q i) -> count_indices n P = count_indices n Q.
Proof.
  induction n as [| n IH]; intros HPQ; [reflexivity |].
  rewrite !count_indices_S, (HPQ n) by lia.
  rewrite IH; [reflexivity |]. intros i Hi. apply HPQ. lia.
Qed.

Lemma count_indices_le (n : nat) (P : nat -> bool) : count_indices n P <= n.
Proof.
  induction n as [| n IH]; [reflexivity |].
  rewrite count_indices_S. destruct (P n); simpl; lia.
Qed.

Lemma count_true_lookup (l : list bool) :
  count_true l = count_indices (length l) (fun i => default false (l !! i)).
Proof.
  induction l as [| b l IH] using rev_ind; [reflexivity |].
  rewrite count_true_app, length_app, Nat.add_1_r, count_indices_S.
  rewrite lookup_app_r, Nat.sub_diag by lia. simpl.
  rewrite count_true_cons, count_true_nil, Nat.add_0_r. f_equal.
  rewrite IH. apply count_indices_ext. intros i Hi.
  rewrite lookup_app_l by lia. reflexivity.
Qed.

Lemma count_true_zip_with {X Y : Type} (f : X -> Y -> bool)
    (xs : list X) (ys : list Y) :
  length xs = length ys ->
  count_true (zip_with f xs ys) =
  count_indices (length xs)
    (fun i => match xs !! i, ys !! i with
              | Some x, Some y => f x y
              | _, _ => false
              end).
Proof.
  intros Hlen. rewrite count_true_lookup, length_zip_with_l_eq by exact Hlen.
  apply count_indices_ext. intros i Hi. rewrite lookup_zip_with.
  destruct (xs !! i) as [x |]; [| reflexivity]. simpl.
  destruct (ys !! i) as [y |]; reflexivity.
Qed.

Lemma broadcast_aligned {X Y Z : Type} (f : X -> Y -> Z)
    (xs : list X) (ys : list Y) :
  length xs = length ys -> broadcast f xs ys = Ok (zip_with f xs ys).
Proof.
  intros Hlen. unfold broadcast.
  rewrite (proj2 (Nat.eqb_eq _ _) Hlen). reflexivity.
Qed.

(** ** Construction *)

Lemma append_assoc (s t u : string) : (s +:+ t) +:+ u = s +:+ t +:+ u.
Proof.
  induction s as [| c s IH]; [reflexivity |].
  change (String c ((s +:+ t) +:+ u) = String c (s +:+ t +:+ u)).
  rewrite IH. reflexivity.
Qed.

Lemma message_contains_lengths (len_fit len_real : nat) :
  contains (pretty len_fit)
    (Prediction.length_mismatch_message len_fit len_real) /\
  contains (pretty len_real)
    (Prediction.length_mismatch_message len_fit len_real).
Proof.
  unfold contains, Prediction.length_mismatch_message. split.
  - eexists
      ("Fitted values and real values must have the same length." +:+ newline
       +:+ "Fitted values has length: "), _.
    rewrite !append_assoc. reflexivity.
  - eexists
      ("Fitted values and real values must have the same length." +:+ newline
       +:+ "Fitted values has length: " +:+ pretty len_fit +:+ "." +:+ newline
       +:+ "Real values has length: "), _.
    rewrite !append_assoc. reflexivity.
Qed.

Section Construction.
Context {A : Type}.

Lemma len_items (x : arraylike A) : len x = length (items x).
Proof. destruct x; reflexivity. Qed.

Lemma values_of_list_to_nparray (x : arraylike A) :
  values_of (Prediction.list_to_nparray x) = items x.
Proof. destruct x; reflexivity. Qed.

Lemma init_aligned (fitted_values real_values : arraylike A) :
  len fitted_values = len real_values ->
  Prediction.__init__ fitted_values (Some real_values) =
  Ok (Prediction._lists_to_nparray fitted_values (Some real_values)).
Proof.
  intros Hlen. unfold Prediction.__init__, Prediction._check_lengths_match.
  rewrite (proj2 (Nat.eqb_eq _ _) Hlen). reflexivity.
Qed.

Lemma init_mismatch (fitted_values real_values : arraylike A) :
  len fitted_values <> len real_values ->
  Prediction.__init__ fitted_values (Some real_values) =
  Raise (ValueError
           (Prediction.length_mismatch_message
              (len fitted_values) (len real_values))).
Proof.
  intros Hlen. unfold Prediction.__init__, Prediction._check_lengths_match.
  rewrite (proj2 (Nat.eqb_neq _ _) Hlen). reflexivity.
Qed.

Lemma lists_to_nparray_over (fitted_values real_values : arraylike A) :
  len fitted_values = len real_values ->
  over (Prediction._lists_to_nparray fitted_values (Some real_values))
    (items fitted_values) (items real_values).
Proof.
  intros Hlen. unfold over. simpl.
  rewrite !values_of_list_to_nparray, <- !len_items. auto.
Qed.

Lemma init_over (fitted_values real_values : arraylike A) (self : Prediction A) :
  Prediction.__init__ fitted_values (Some real_values) = Ok self ->
  over self (items fitted_values) (items real_values).
Proof.
  intros Hinit. destruct (Nat.eq_dec (len fitted_values) (len real_values))
    as [Hlen | Hlen].
  - rewrite (init_aligned _ _ Hlen) in Hinit. injection Hinit as <-.
    apply lists_to_nparray_over, Hlen.
  - rewrite (init_mismatch _ _ Hlen) in Hinit. discriminate Hinit.
Qed.

Lemma binary_init_over (fitted_values real_values : arraylike A) (v : A)
    (self : BinaryPrediction A) :
  BinaryPrediction.__init__ fitted_values (Some real_values) v = Ok self ->
  over self (items fitted_values) (items real_values) /\
  value_positive self = v.
Proof.
  unfold BinaryPrediction.__init__. intros Hinit.
  destruct (Prediction.__init__ fitted_values (Some real_values))
    as [p | e] eqn:Hp; [| discriminate Hinit].
  injection Hinit as <-. split; [apply (init_over _ _ _ Hp) | reflexivity].
Qed.

End Construction.

(** C3.  Constructing a [Prediction] from fitted values of length [a] and
    real values of length [b <> a] raises a [ValueError] whose message
    contains the decimal numerals of both [a] and [b], and returns no object;
    with equal lengths the construction returns an object holding the two
    sequences. *)
Theorem init_checks_lengths {A : Type} (fitted_values real_values : arraylike A) :
  (len fitted_values <> len real_values ->
   exists msg,
     Prediction.__init__ fitted_values (Some real_values) = Raise (ValueError msg) /\
     contains (pretty (len fitted_values)) msg /\
     contains (pretty (len real_values)) msg /\
     forall self, Prediction.__init__ fitted_values (Some real_values) <> Ok self) /\
  (len fitted_values = len real_values ->
   exists self,
     Prediction.__init__ fitted_values (Some real_values) = Ok self /\
     over self (items fitted_values) (items real_values)).
Proof.
  split; intros Hlen.
  - eexists. rewrite (init_mismatch _ _ Hlen).
    split; [reflexivity |].
    destruct (message_contains_lengths (len fitted_values) (len real_values))
      as [Hfit Hreal].
    repeat split; try assumption. intros self Heq. discriminate Heq.
  - eexists. split; [apply (init_aligned _ _ Hlen) |].
    apply lists_to_nparray_over, Hlen.
Qed.

Lemma init_checks_lengths_witness :
  (exists msg,
     Prediction.__init__ (PyList [1; 2; 3]%Z) (Some (PyList [1; 0]%Z)) =
       Raise (ValueError msg) /\
     contains "3" msg /\ contains "2" msg /\
     forall self,
       Prediction.__init__ (PyList [1; 2; 3]%Z) (Some (PyList [1; 0]%Z)) <> Ok self) /\
  (exists self,
     Prediction.__init__ (PyList [1; 2; 3]%Z) (Some (PyArray (Series [1; 0; 3]%Z))) =
       Ok self /\
     over self [1; 2; 3]%Z [1; 0; 3]%Z).
Proof.
  split.
  - apply (proj1 (init_checks_lengths (PyList [1; 2; 3]%Z) (PyList [1; 0]%Z))).
    simpl. lia.
  - apply (proj2 (init_checks_lengths (PyList [1; 2; 3]%Z)
                    (PyArray (Series [1; 0; 3]%Z)))).
    reflexivity.
Defined.

(** ** Quotients *)

Lemma true_divide_Nan (k n : nat) :
  k <= n -> (true_divide k n = Nan <-> n = 0).
Proof.
  intros Hk. destruct n as [| n]; simpl.
  - replace k with 0 by lia. simpl. tauto.
  - split; [discriminate | lia].
Qed.

Lemma true_divide_unit (k n : nat) :
  k <= n -> n <> 0 -> in_unit_interval (true_divide k n).
Proof.
  intros Hk Hn. destruct n as [| n]; [contradiction |].
  unfold true_divide, in_unit_interval, Qle. simpl Qnum. simpl Qden.
  split; lia.
Qed.

(** ** Prediction: matches and percentage_correctly_classified *)

Section PredictionMetrics.
Context {A : Type} `{DType A}.

Lemma over_fields (self : Prediction A) (fitted real : list A) :
  over self fitted real ->
  exists a, real_values self = Some a /\ values_of a = real /\
            values_of (fitted_values self) = fitted /\
            length real = length fitted.
Proof.
  intros (Hfit & Hreal & Hlen).
  destruct (real_values self) as [a |]; [| discriminate].
  exists a. injection Hreal as Hreal. auto.
Qed.

Lemma real_equals_fitted_over (self : Prediction A) (fitted real : list A) :
  over self fitted real ->
  Prediction.real_equals_fitted self = Ok (zip_with np_equal real fitted).
Proof.
  intros Hover. destruct (over_fields _ _ _ Hover) as (a & Ha & <- & <- & Hlen).
  unfold Prediction.real_equals_fitted. rewrite Ha.
  apply broadcast_aligned, Hlen.
Qed.

Lemma lookup_equal (fitted real : list A) (i : nat) :
  length fitted = length real -> i < length fitted ->
  zip_with np_equal real fitted !! i = Some (equal_at fitted real i).
Proof.
  intros Hlen Hi. rewrite lookup_zip_with. unfold equal_at.
  destruct (lookup_lt_is_Some_2 fitted i Hi) as [f ->].
  destruct (lookup_lt_is_Some_2 real i ltac:(lia)) as [r ->].
  simpl. rewrite np_equal_sym. reflexivity.
Qed.

Lemma count_equal (fitted real : list A) :
  length fitted = length real ->
  count_true (zip_with np_equal real fitted) =
  count_indices (length fitted) (equal_at fitted real).
Proof.
  intros Hlen. rewrite count_true_zip_with, Hlen by lia.
  apply count_indices_ext. intros i Hi. unfold equal_at.
  destruct (real !! i) as [r |], (fitted !! i) as [f |]; try reflexivity.
  apply np_equal_sym.
Qed.

Lemma matches_over (self : Prediction A) (fitted real : list A) :
  over self fitted real ->
  exists m,
    Prediction.matches self = Ok m /\
    length m = length fitted /\
    (forall i, i < length fitted -> m !! i = Some (equal_at fitted real i)) /\
    count_true m = count_indices (length fitted) (equal_at fitted real).
Proof.
  intros Hover. exists (zip_with np_equal real fitted).
  destruct Hover as (Hfit & Hreal & Hlen).
  split; [apply real_equals_fitted_over; repeat split; assumption |].
  split; [apply length_zip_with_r_eq; exact Hlen |].
  split; [intros i Hi; apply lookup_equal; assumption |].
  apply count_equal, Hlen.
Qed.

Lemma pcc_over (self : Prediction A) (fitted real : list A) :
  over self fitted real ->
  Prediction.percentage_correctly_classified self =
  Ok (true_divide (count_indices (length fitted) (equal_at fitted real))
        (length fitted)).
Proof.
  intros Hover. unfold Prediction.percentage_correctly_classified.
  rewrite (real_equals_fitted_over _ _ _ Hover), bind_Ok.
  destruct Hover as (_ & _ & Hlen).
  unfold np_mean. rewrite count_equal, length_zip_with_r_eq by exact Hlen.
  reflexivity.
Qed.

End PredictionMetrics.

(** C6.  For a [Prediction] over sequences [fitted] and [real] of one length
    N, [matches()] returns a boolean sequence of length N whose entry [i] is
    [fitted[i] == real[i]]; [percentage_correctly_classified], and [pcc]
    which is the same computation, return the mean of that sequence, that is
    the number of equal positions over N: NaN exactly when N = 0 and within
    [0, 1] otherwise.  On fitted [1,2,3] and real [1,0,3] the matches are
    [True, False, True] and the rate is 2/3. *)
Theorem matches_and_pcc :
  (forall (A : Type) (D : DType A) (self : Prediction A) (fitted real : list A),
     over self fitted real ->
     exists m rate,
       Prediction.matches self = Ok m /\
       length m = length fitted /\
       (forall i, i < length fitted -> m !! i = Some (equal_at fitted real i)) /\
       Prediction.percentage_correctly_classified self = Ok rate /\
       Prediction.pcc self = Ok rate /\
       rate = np_mean m /\
       rate = true_divide (count_indices (length fitted) (equal_at fitted real))
                (length fitted) /\
       (rate = Nan <-> length fitted = 0) /\
       (length fitted <> 0 -> in_unit_interval rate)) /\
  (forall self : Prediction Z,
     over self [1; 2; 3]%Z [1; 0; 3]%Z ->
     Prediction.matches self = Ok [true; false; true] /\
     Prediction.percentage_correctly_classified self = Ok (Finite (2 # 3))).
Proof.
  split.
  - intros A D self fitted real Hover.
    destruct (matches_over _ _ _ Hover) as (m & Hm & Hlen & Hlookup & Hcount).
    exists m, (true_divide (count_indices (length fitted) (equal_at fitted real))
                 (length fitted)).
    pose proof (count_indices_le (length fitted) (equal_at fitted real)) as Hle.
    split; [exact Hm |]. split; [exact Hlen |]. split; [exact Hlookup |].
    split; [apply pcc_over, Hover |]. split; [apply pcc_over, Hover |].
    split; [unfold np_mean; rewrite Hcount, Hlen; reflexivity |].
    split; [reflexivity |].
    split; [apply true_divide_Nan, Hle |].
    intros Hn. apply true_divide_unit; [exact Hle | exact Hn].
  - intros self Hover. split.
    + unfold Prediction.matches.
      rewrite (real_equals_fitted_over _ _ _ Hover). reflexivity.
    + rewrite (pcc_over _ _ _ Hover). reflexivity.
Qed.

Lemma matches_and_pcc_witness :
  exists self : Prediction Z,
    Prediction.__init__ (PyList [1; 2; 3]%Z) (Some (PyList [1; 0; 3]%Z)) = Ok self /\
    Prediction.matches self = Ok [true; false; true] /\
    Prediction.pcc self = Ok (Finite (2 # 3)) /\
    exists rate,
      Prediction.percentage_correctly_classified self = Ok rate /\
      in_unit_interval rate.
Proof.
  eexists. split; [reflexivity |].
  assert (Hover : over
            (Prediction._lists_to_nparray (PyList [1; 2; 3]%Z)
               (Some (PyList [1; 0; 3]%Z)))
            [1; 2; 3]%Z [1; 0; 3]%Z) by (repeat split).
  destruct (proj2 matches_and_pcc _ Hover) as [Hmatches Hrate].
  destruct (proj1 matches_and_pcc _ _ _ _ _ Hover)
    as (m & rate & _ & _ & _ & Hpcc & _ & _ & _ & _ & Hunit).
  split; [exact Hmatches |]. split; [exact Hrate |].
  exists rate. split; [exact Hpcc |]. apply Hunit. simpl. lia.
Defined.

(** ** NumericPrediction: residuals and matches *)

Lemma lookup_map {X Y : Type} (f : X -> Y) (l : list X) (i : nat) :
  map f l !! i = option_map f (l !! i).
Proof. apply (list_lookup_fmap f l i). Qed.

Section NumericMetrics.
Context {A : Type} `{Numeric A}.

Lemma real_minus_fitted_over (self : Prediction A) (fitted real : list A) :
  over self fitted real ->
  NumericPrediction.real_minus_fitted self = Ok (zip_with np_subtract real fitted).
Proof.
  intros Hover. destruct (over_fields _ _ _ Hover) as (a & Ha & <- & <- & Hlen).
  unfold NumericPrediction.real_minus_fitted. rewrite Ha.
  apply broadcast_aligned, Hlen.
Qed.

Lemma lookup_difference (fitted real : list A) (i : nat) (f r : A) :
  fitted !! i = Some f -> real !! i = Some r ->
  zip_with np_subtract real fitted !! i = Some (np_subtract r f).
Proof. intros Hf Hr. rewrite lookup_zip_with, Hr, Hf. reflexivity. Qed.

Lemma residuals_over (self : Prediction A) (fitted real : list A)
    (squared absolute_value : bool) :
  over self fitted real ->
  exists res,
    NumericPrediction.residuals self squared absolute_value = Ok res /\
    length res = length fitted /\
    forall i f r, fitted !! i = Some f -> real !! i = Some r ->
      res !! i = Some (residual_form squared absolute_value r f).
Proof.
  intros Hover. unfold NumericPrediction.residuals.
  rewrite (real_minus_fitted_over _ _ _ Hover), bind_Ok.
  destruct Hover as (_ & _ & Hlen). unfold residual_form.
  destruct squared; [| destruct absolute_value]; eexists;
    (split; [reflexivity |]); split;
    rewrite ?length_map, ?length_zip_with_r_eq by exact Hlen; try reflexivity;
    intros i f r Hf Hr;
    rewrite ?lookup_map, (lookup_difference _ _ _ _ _ Hf Hr); reflexivity.
Qed.

Lemma numeric_matches_over (self : Prediction A) (fitted real : list A)
    (tolerance : A) :
  over self fitted real ->
  exists m,
    NumericPrediction.matches self tolerance = Ok m /\
    length m = length fitted /\
    forall i f r, fitted !! i = Some f -> real !! i = Some r ->
      m !! i = Some (np_less_equal (np_absolute (np_subtract r f)) tolerance).
Proof.
  intros Hover. unfold NumericPrediction.matches.
  rewrite (real_minus_fitted_over _ _ _ Hover), bind_Ok.
  destruct Hover as (_ & _ & Hlen). eexists. split; [reflexivity |]. split.
  - rewrite length_map, length_zip_with_r_eq by exact Hlen. reflexivity.
  - intros i f r Hf Hr.
    rewrite lookup_map, (lookup_difference _ _ _ _ _ Hf Hr). reflexivity.
Qed.

End NumericMetrics.

(** C4.  For a [NumericPrediction] over [fitted] and [real], a call
    [residuals(squared, absolute_value)] returns one sequence of the same
    length, whose entry [i] is [(real[i] - fitted[i]) ** 2] when [squared] is
    set (also when both flags are), else [abs(real[i] - fitted[i])] when
    [absolute_value] is set, else [real[i] - fitted[i]].  On fitted [5,5,5]
    and real [3,4,6] this is [-2,-1,1], squared [4,1,1], absolute [2,1,1]. *)
Theorem residuals_three_forms :
  (forall (A : Type) (D : DType A) (N : Numeric A) (self : Prediction A)
          (fitted real : list A) (squared absolute_value : bool),
     over self fitted real ->
     exists res,
       NumericPrediction.residuals self squared absolute_value = Ok res /\
       length res = length fitted /\
       forall i f r, fitted !! i = Some f -> real !! i = Some r ->
         res !! i =
         Some (if squared then np_square (np_subtract r f)
               else if absolute_value then np_absolute (np_subtract r f)
               else np_subtract r f)) /\
  (forall self : Prediction Z,
     over self [5; 5; 5]%Z [3; 4; 6]%Z ->
     NumericPrediction.residuals self false false = Ok [-2; -1; 1]%Z /\
     NumericPrediction.residuals self true false = Ok [4; 1; 1]%Z /\
     NumericPrediction.residuals self false true = Ok [2; 1; 1]%Z /\
     NumericPrediction.residuals self true true = Ok [4; 1; 1]%Z).
Proof.
  split.
  - intros A D N self fitted real squared absolute_value Hover.
    exact (residuals_over self fitted real squared absolute_value Hover).
  - intros self Hover. unfold NumericPrediction.residuals.
    rewrite (real_minus_fitted_over _ _ _ Hover). repeat split; reflexivity.
Qed.

Lemma residuals_three_forms_witness :
  exists self : Prediction Z,
    NumericPrediction.__init__ (PyList [5; 5; 5]%Z) (Some (PyList [3; 4; 6]%Z)) =
      Ok self /\
    NumericPrediction.residuals self false false = Ok [-2; -1; 1]%Z /\
    NumericPrediction.residuals self true false = Ok [4; 1; 1]%Z /\
    NumericPrediction.residuals self false true = Ok [2; 1; 1]%Z /\
    NumericPrediction.residuals self true true = Ok [4; 1; 1]%Z /\
    exists res,
      NumericPrediction.residuals self true true = Ok res /\ length res = 3.
Proof.
  eexists. split; [reflexivity |].
  assert (Hover : over
            (Prediction._lists_to_nparray (PyList [5; 5; 5]%Z)
               (Some (PyList [3; 4; 6]%Z)))
            [5; 5; 5]%Z [3; 4; 6]%Z) by (repeat split).
  destruct (proj2 residuals_three_forms _ Hover) as (H1 & H2 & H3 & H4).
  destruct (proj1 residuals_three_forms _ _ _ _ _ _ true true Hover)
    as (res & Hres & Hlen & _).
  repeat (split; [assumption |]). exists res. split; assumption.
Defined.

(** C5.  For a [NumericPrediction] over [fitted] and [real] of length N,
    [matches(tolerance)] returns a boolean sequence of length N whose entry
    [i] is [abs(real[i] - fitted[i]) <= tolerance]; it replaces the equality
    test of [Prediction.matches], from which it can differ.  On fitted
    [1.0, 2.0], real [1.05, 2.5] and tolerance 0.1 it is [True, False]. *)
Theorem numeric_matches_tolerance :
  (forall (A : Type) (D : DType A) (N : Numeric A) (self : Prediction A)
          (fitted real : list A) (tolerance : A),
     over self fitted real ->
     exists m,
       NumericPrediction.matches self tolerance = Ok m /\
       length m = length fitted /\
       forall i f r, fitted !! i = Some f -> real !! i = Some r ->
         m !! i = Some (np_less_equal (np_absolute (np_subtract r f)) tolerance)) /\
  (forall self : Prediction float,
     over self [1.0; 2.0]%float [1.05; 2.5]%float ->
     NumericPrediction.matches self 0.1%float = Ok [true; false] /\
     Prediction.matches self = Ok [false; false]).
Proof.
  split.
  - intros A D N self fitted real tolerance Hover.
    exact (numeric_matches_over self fitted real tolerance Hover).
  - intros self Hover. unfold NumericPrediction.matches, Prediction.matches.
    rewrite (real_minus_fitted_over _ _ _ Hover).
    rewrite (real_equals_fitted_over _ _ _ Hover).
    split; vm_compute; reflexivity.
Qed.

Lemma numeric_matches_tolerance_witness :
  exists self : Prediction float,
    NumericPrediction.__init__ (PyList [1.0; 2.0]%float)
      (Some (PyList [1.05; 2.5]%float)) = Ok self /\
    NumericPrediction.matches self 0.1%float = Ok [true; false] /\
    exists m,
      NumericPrediction.matches self 0.5%float = Ok m /\ length m = 2.
Proof.
  eexists. split; [reflexivity |].
  assert (Hover : over
            (Prediction._lists_to_nparray (PyList [1.0; 2.0]%float)
               (Some (PyList [1.05; 2.5]%float)))
            [1.0; 2.0]%float [1.05; 2.5]%float) by (repeat split).
  destruct (proj2 numeric_matches_tolerance _ Hover) as [Hm _].
  destruct (proj1 numeric_matches_tolerance _ _ _ _ _ _ 0.5%float Hover)
    as (m & Hm' & Hlen & _).
  split; [exact Hm |]. exists m. split; assumption.
Defined.

(** ** NumericPrediction over int64: tolerance zero *)

Section Int64.
Local Open Scope Z_scope.

Ltac int64_bounds :=
  unfold int64.in_range, int64.min_value, int64.max_value in *; lia.

Lemma int64_wrap_small (z : Z) : int64.in_range z -> int64.wrap z = z.
Proof.
  unfold int64.in_range, int64.min_value, int64.max_value, int64.wrap.
  intros Hz. rewrite Z.mod_small; lia.
Qed.

Lemma int64_wrap_shift (z : Z) (k : Z) :
  int64.in_range (z + k * 2 ^ 64) -> int64.wrap z = z + k * 2 ^ 64.
Proof.
  intros Hz. rewrite <- (int64_wrap_small _ Hz). unfold int64.wrap.
  replace (z + k * 2 ^ 64 + 2 ^ 63) with (z + 2 ^ 63 + k * 2 ^ 64) by lia.
  rewrite Z.mod_add by lia. reflexivity.
Qed.

(** Away from the one magnitude where [abs] overflows, the int64 test
    [abs(r - f) <= 0] is the test [r == f]. *)
Lemma int64_tolerance_zero (r f : Z) :
  int64.in_range r -> int64.in_range f -> Z.abs (r - f) <> 2 ^ 63 ->
  np_less_equal (np_absolute (np_subtract r f)) 0 = np_equal r f.
Proof.
  unfold int64.in_range, int64.min_value, int64.max_value. intros Hr Hf Habs.
  simpl. unfold int64.absolute, int64.sub.
  assert (Hcases : - 2 ^ 63 <= r - f <= 2 ^ 63 - 1 \/
                   2 ^ 63 < r - f \/ r - f < - 2 ^ 63) by lia.
  destruct Hcases as [Hin | [Hhigh | Hlow]].
  - rewrite (int64_wrap_small (r - f)) by exact Hin.
    destruct (Z.eq_dec (r - f) (- 2 ^ 63)) as [Hmin | Hmin]; [lia |].
    rewrite int64_wrap_small by int64_bounds.
    destruct (Z.eqb_spec r f), (Z.leb_spec (Z.abs (r - f)) 0); lia.
  - rewrite (int64_wrap_shift (r - f) (-1)) by int64_bounds.
    rewrite int64_wrap_small by int64_bounds.
    destruct (Z.eqb_spec r f), (Z.leb_spec (Z.abs (r - f + -1 * 2 ^ 64)) 0); lia.
  - rewrite (int64_wrap_shift (r - f) 1) by int64_bounds.
    rewrite int64_wrap_small by int64_bounds.
    destruct (Z.eqb_spec r f), (Z.leb_spec (Z.abs (r - f + 1 * 2 ^ 64)) 0); lia.
Qed.

Lemma int64_matches_zero (fitted real : list Z) :
  int64_exact fitted real ->
  map (fun d => np_less_equal (np_absolute d) 0) (zip_with np_subtract real fitted) =
  zip_with np_equal real fitted.
Proof.
  induction 1 as [| f r fitted real (Hf & Hr & Habs) _ IH]; [reflexivity |].
  cbn [zip_with map]. rewrite IH, (int64_tolerance_zero r f Hr Hf Habs).
  reflexivity.
Qed.

Lemma int64_pcc_is_mean_of_matches_zero (self : Prediction Z)
    (fitted real : list Z) :
  over self fitted real -> int64_exact fitted real ->
  exists m,
    NumericPrediction.matches self 0 = Ok m /\
    Prediction.matches self = Ok m /\
    NumericPrediction.percentage_correctly_classified self = Ok (np_mean m).
Proof.
  intros Hover Hexact. exists (zip_with np_equal real fitted).
  unfold NumericPrediction.matches, Prediction.matches,
    NumericPrediction.percentage_correctly_classified,
    Prediction.percentage_correctly_classified.
  rewrite (real_minus_fitted_over _ _ _ Hover).
  rewrite (real_equals_fitted_over _ _ _ Hover), !bind_Ok.
  rewrite (int64_matches_zero _ _ Hexact). auto.
Qed.

End Int64.

(** C9, as the code has it.  The [percentage_correctly_classified] of a
    [NumericPrediction] is the inherited one: the rate of exact equality,
    which takes no tolerance.  Over int64 data on which no residual
    [real[i] - fitted[i]] has magnitude [2 ^ 63] it is the mean of
    [matches(0)]; and for a tolerance above zero it can be strictly below
    the mean of [matches(tolerance)]. *)
Theorem pcc_is_exact_equality_rate :
  (forall (A : Type) (D : DType A) (N : Numeric A) (self : Prediction A)
          (fitted real : list A),
     over self fitted real ->
     NumericPrediction.percentage_correctly_classified self =
       Prediction.percentage_correctly_classified self /\
     NumericPrediction.percentage_correctly_classified self =
       Ok (true_divide (count_indices (length fitted) (equal_at fitted real))
             (length fitted))) /\
  (forall (self : Prediction Z) (fitted real : list Z),
     over self fitted real -> int64_exact fitted real ->
     exists m,
       NumericPrediction.matches self 0%Z = Ok m /\
       NumericPrediction.percentage_correctly_classified self = Ok (np_mean m)) /\
  (exists (self : Prediction Z) (tolerance : Z) (m : list bool) (rate : quotient),
     over self [1; 2]%Z [2; 2]%Z /\ (0 < tolerance)%Z /\
     NumericPrediction.matches self tolerance = Ok m /\
     NumericPrediction.percentage_correctly_classified self = Ok rate /\
     quotient_lt rate (np_mean m)).
Proof.
  split; [| split].
  - intros A D N self fitted real Hover. split; [reflexivity |].
    apply (pcc_over self fitted real Hover).
  - intros self fitted real Hover Hexact.
    destruct (int64_pcc_is_mean_of_matches_zero self fitted real Hover Hexact)
      as (m & Hm & _ & Hrate).
    exists m. split; assumption.
  - exists (Prediction._lists_to_nparray (PyList [1; 2]%Z) (Some (PyList [2; 2]%Z))),
      1%Z, [true; true], (Finite (1 # 2)).
    repeat split; vm_compute; congruence.
Qed.

Lemma pcc_is_exact_equality_rate_witness :
  exists (self : Prediction Z) (m : list bool),
    NumericPrediction.__init__ (PyList [1; 2; 3]%Z) (Some (PyList [1; 0; 3]%Z)) =
      Ok self /\
    NumericPrediction.matches self 0%Z = Ok m /\
    NumericPrediction.percentage_correctly_classified self = Ok (np_mean m) /\
    NumericPrediction.percentage_correctly_classified self = Ok (Finite (2 # 3)).
Proof.
  assert (Hover : over
            (Prediction._lists_to_nparray (PyList [1; 2; 3]%Z)
               (Some (PyList [1; 0; 3]%Z)))
            [1; 2; 3]%Z [1; 0; 3]%Z) by (repeat split).
  assert (Hexact : int64_exact [1; 2; 3]%Z [1; 0; 3]%Z).
  { unfold int64_exact, int64.in_range, int64.min_value, int64.max_value.
    repeat constructor; simpl; lia. }
  destruct (proj1 (proj2 pcc_is_exact_equality_rate) _ _ _ Hover Hexact)
    as (m & Hm & Hrate).
  destruct (proj1 pcc_is_exact_equality_rate _ _ _ _ _ _ Hover) as [_ Hcount].
  eexists _, m. split; [reflexivity |]. repeat split; assumption.
Defined.

(** C9 as the specification words it fails on int64 data: with fitted [0]
    and real [-2 ^ 63] the two values differ, so the rate is 0, yet [abs] of
    the residual overflows to [-2 ^ 63], which is [<= 0]: [matches(0)] is
    [True] and its mean is 1. *)
Lemma pcc_below_matches_zero_at_int64_min :
  exists (self : Prediction Z) (m : list bool) (rate : quotient),
    NumericPrediction.__init__ (PyList [0]%Z)
      (Some (PyList [int64.min_value])) = Ok self /\
    NumericPrediction.matches self 0%Z = Ok m /\
    NumericPrediction.percentage_correctly_classified self = Ok rate /\
    m = [true] /\ rate = Finite 0 /\ np_mean m = Finite 1 /\
    quotient_lt rate (np_mean m) /\
    NumericPrediction.percentage_correctly_classified self <> Ok (np_mean m).
Proof.
  eexists _, [true], (Finite 0).
  repeat split; try (vm_compute; congruence).
Qed.

(** ** BinaryPrediction: the class partition and its counts *)

Lemma mask_binop_aligned (f : bool -> bool -> bool) (l k : list bool) :
  length l = length k ->
  mask_binop f (MaskArray l) (MaskArray k) = Ok (MaskArray (zip_with f l k)).
Proof.
  intros Hlen. unfold mask_binop. rewrite (broadcast_aligned f l k Hlen).
  reflexivity.
Qed.

Lemma count_indices_partition (n : nat) (P Q : nat -> bool) :
  count_indices n (fun i => negb (P i) && negb (Q i)) +
  count_indices n (fun i => P i && negb (Q i)) +
  count_indices n (fun i => negb (P i) && Q i) +
  count_indices n (fun i => P i && Q i) = n.
Proof.
  induction n as [| n IH]; [reflexivity |].
  rewrite !count_indices_S. destruct (P n), (Q n); simpl; lia.
Qed.

Section BinaryMetrics.
Context {A : Type} `{DType A}.

(** The count of the positions at which [f] holds of two class tests. *)
Lemma count_classes (f : bool -> bool -> bool) (g h : A -> bool)
    (P Q : nat -> bool) (fitted real : list A) :
  length fitted = length real ->
  (forall i x, fitted !! i = Some x -> g x = P i) ->
  (forall i y, real !! i = Some y -> h y = Q i) ->
  count_true (zip_with f (map g fitted) (map h real)) =
  count_indices (length fitted) (fun i => f (P i) (Q i)).
Proof.
  intros Hlen HP HQ.
  rewrite count_true_zip_with by (rewrite !length_map; exact Hlen).
  rewrite length_map. apply count_indices_ext. intros i Hi.
  rewrite !lookup_map.
  destruct (lookup_lt_is_Some_2 fitted i Hi) as [x Hx].
  destruct (lookup_lt_is_Some_2 real i ltac:(lia)) as [y Hy].
  rewrite Hx, Hy. simpl. rewrite (HP i x Hx), (HQ i y Hy). reflexivity.
Qed.

Lemma is_positive_lookup (values : list A) (v : A) (i : nat) (x : A) :
  values !! i = Some x -> np_equal x v = is_positive values v i.
Proof. intros Hx. unfold is_positive. rewrite Hx. reflexivity. Qed.

Lemma is_negative_lookup (values : list A) (v : A) (i : nat) (x : A) :
  values !! i = Some x -> np_not_equal x v = is_negative values v i.
Proof.
  intros Hx. unfold is_negative, is_positive, np_not_equal. rewrite Hx.
  reflexivity.
Qed.

Lemma binary_masks (self : BinaryPrediction A) (fitted real : list A) :
  over self fitted real ->
  BinaryPrediction.equal_to (fitted_values self) (value_positive self) =
    MaskArray (map (fun x => np_equal x (value_positive self)) fitted) /\
  BinaryPrediction.not_equal_to (fitted_values self) (value_positive self) =
    MaskArray (map (fun x => np_not_equal x (value_positive self)) fitted) /\
  BinaryPrediction.real_equal_to (real_values self) (value_positive self) =
    MaskArray (map (fun x => np_equal x (value_positive self)) real) /\
  BinaryPrediction.real_not_equal_to (real_values self) (value_positive self) =
    MaskArray (map (fun x => np_not_equal x (value_positive self)) real).
Proof.
  intros Hover. destruct (over_fields _ _ _ Hover) as (a & Ha & <- & <- & Hlen).
  unfold BinaryPrediction.real_equal_to, BinaryPrediction.real_not_equal_to.
  rewrite Ha. repeat split; reflexivity.
Qed.

Lemma mask_count (f : bool -> bool -> bool) (g h : A -> bool)
    (P Q : nat -> bool) (fitted real : list A) :
  length fitted = length real ->
  (forall i x, fitted !! i = Some x -> g x = P i) ->
  (forall i y, real !! i = Some y -> h y = Q i) ->
  (let* m := mask_binop f (MaskArray (map g fitted)) (MaskArray (map h real)) in
   mask_sum m) =
  Ok (count_indices (length fitted) (fun i => f (P i) (Q i))).
Proof.
  intros Hlen HP HQ.
  rewrite mask_binop_aligned by (rewrite !length_map; exact Hlen).
  rewrite bind_Ok. simpl. f_equal. apply count_classes; assumption.
Qed.

End BinaryMetrics.

Section BinaryTheorems.
Context {A : Type} `{DType A}.
Implicit Types (self : BinaryPrediction A) (fitted real : list A).

Lemma count_both_over self fitted real (g h : A -> bool) (P Q : nat -> bool) :
  length fitted = length real ->
  (forall i x, fitted !! i = Some x -> g x = P i) ->
  (forall i y, real !! i = Some y -> h y = Q i) ->
  BinaryPrediction.count_both (MaskArray (map g fitted)) (MaskArray (map h real)) =
  Ok (count_indices (length fitted) (fun i => P i && Q i)).
Proof.
  intros Hlen HP HQ. unfold BinaryPrediction.count_both, mask_and.
  apply (mask_count andb); assumption.
Qed.

Lemma confusion_matrix_over self fitted real (as_dataframe : bool) :
  over self fitted real ->
  let v := value_positive self in
  let count P := count_indices (length fitted) P in
  BinaryPrediction.confusion_matrix self as_dataframe =
  if as_dataframe then Ok None
  else Ok (Some
    [[count (fun i => is_negative fitted v i && is_negative real v i);
      count (fun i => is_positive fitted v i && is_negative real v i)];
     [count (fun i => is_negative fitted v i && is_positive real v i);
      count (fun i => is_positive fitted v i && is_positive real v i)]]).
Proof.
  intros Hover v count. unfold BinaryPrediction.confusion_matrix.
  destruct (binary_masks self fitted real Hover) as (-> & -> & -> & ->).
  destruct Hover as (_ & _ & Hlen). fold v.
  rewrite (count_both_over self fitted real _ _
             (is_negative fitted v) (is_negative real v) Hlen)
    by (intros; apply is_negative_lookup; assumption).
  rewrite (count_both_over self fitted real _ _
             (is_positive fitted v) (is_negative real v) Hlen)
    by (intros; first [apply is_negative_lookup | apply is_positive_lookup];
        assumption).
  rewrite (count_both_over self fitted real _ _
             (is_negative fitted v) (is_positive real v) Hlen)
    by (intros; first [apply is_negative_lookup | apply is_positive_lookup];
        assumption).
  rewrite (count_both_over self fitted real _ _
             (is_positive fitted v) (is_positive real v) Hlen)
    by (intros; apply is_positive_lookup; assumption).
  rewrite !bind_Ok. destruct as_dataframe; reflexivity.
Qed.

Lemma sensitivity_over self fitted real :
  over self fitted real ->
  let v := value_positive self in
  let count P := count_indices (length fitted) P in
  BinaryPrediction.sensitivity self =
  Ok (true_divide
        (count (fun i => is_positive fitted v i && is_positive real v i))
        (count (fun i => is_positive fitted v i || is_positive real v i))).
Proof.
  intros Hover v count. unfold BinaryPrediction.sensitivity.
  destruct (binary_masks self fitted real Hover) as (-> & _ & -> & _).
  destruct Hover as (_ & _ & Hlen). fold v. unfold mask_and, mask_or.
  rewrite !mask_binop_aligned by (rewrite !length_map; exact Hlen).
  repeat first [rewrite bind_Ok | progress (simpl mask_sum)].
  rewrite (count_classes andb _ _ (is_positive fitted v) (is_positive real v))
    by (try exact Hlen; intros; apply is_positive_lookup; assumption).
  rewrite (count_classes orb _ _ (is_positive fitted v) (is_positive real v))
    by (try exact Hlen; intros; apply is_positive_lookup; assumption).
  reflexivity.
Qed.

Lemma specificity_over self fitted real :
  over self fitted real ->
  let v := value_positive self in
  let count P := count_indices (length fitted) P in
  BinaryPrediction.specificity self =
  Ok (true_divide
        (count (fun i => is_negative fitted v i && is_negative real v i))
        (count (fun i => is_negative fitted v i || is_negative real v i))).
Proof.
  intros Hover v count. unfold BinaryPrediction.specificity.
  destruct (binary_masks self fitted real Hover) as (_ & -> & _ & ->).
  destruct Hover as (_ & _ & Hlen). fold v. unfold mask_and, mask_or.
  rewrite !mask_binop_aligned by (rewrite !length_map; exact Hlen).
  repeat first [rewrite bind_Ok | progress (simpl mask_sum)].
  rewrite (count_classes andb _ _ (is_negative fitted v) (is_negative real v))
    by (try exact Hlen; intros; apply is_negative_lookup; assumption).
  rewrite (count_classes orb _ _ (is_negative fitted v) (is_negative real v))
    by (try exact Hlen; intros; apply is_negative_lookup; assumption).
  reflexivity.
Qed.

End BinaryTheorems.

(** C1.  For a [BinaryPrediction] over [fitted] and [real],
    [confusion_matrix(as_dataframe=False)] returns the 2x2 matrix of the
    counts [[neg & neg, pos & neg], [neg & pos, pos & pos]] (predicted class
    first, actual class second; row 0 the actual negatives, row 1 the actual
    positives).  With [as_dataframe] set the function returns [None]: the
    labelled table of the specification is not produced. *)
Theorem confusion_matrix_counts_then_None {A : Type} `{DType A}
    (self : BinaryPrediction A) (fitted real : list A) :
  over self fitted real ->
  BinaryPrediction.confusion_matrix self false =
    Ok (Some
      [[count_indices (length fitted)
          (fun i => is_negative fitted (value_positive self) i &&
                    is_negative real (value_positive self) i);
        count_indices (length fitted)
          (fun i => is_positive fitted (value_positive self) i &&
                    is_negative real (value_positive self) i)];
       [count_indices (length fitted)
          (fun i => is_negative fitted (value_positive self) i &&
                    is_positive real (value_positive self) i);
        count_indices (length fitted)
          (fun i => is_positive fitted (value_positive self) i &&
                    is_positive real (value_positive self) i)]]) /\
  BinaryPrediction.confusion_matrix self true = Ok None.
Proof.
  intros Hover. split.
  - apply (confusion_matrix_over self fitted real false Hover).
  - apply (confusion_matrix_over self fitted real true Hover).
Qed.

Lemma confusion_matrix_counts_then_None_witness :
  exists self : BinaryPrediction Z,
    BinaryPrediction.__init__ (PyList [1; 1; 0; 0]%Z)
      (Some (PyList [1; 0; 0; 0]%Z)) 1%Z = Ok self /\
    BinaryPrediction.confusion_matrix self false = Ok (Some [[2; 1]; [0; 1]]) /\
    BinaryPrediction.confusion_matrix self true = Ok None.
Proof.
  destruct (confusion_matrix_counts_then_None
              {| base := Prediction._lists_to_nparray (PyList [1; 1; 0; 0]%Z)
                           (Some (PyList [1; 0; 0; 0]%Z));
                 value_positive := 1%Z |}
              [1; 1; 0; 0]%Z [1; 0; 0; 0]%Z)
    as [Hcounts Hnone].
  - repeat split.
  - eexists. split; [reflexivity |]. split; [exact Hcounts | exact Hnone].
Defined.

(** C2.  For a [BinaryPrediction] over [fitted] and [real] of one length,
    [sensitivity] is count(pred_pos & real_pos) / count(pred_pos | real_pos)
    and [specificity] is count(pred_neg & real_neg) / count(pred_neg |
    real_neg): the denominators count the union of the predicted and the
    actual class.  On fitted [1,1,0,0], real [1,0,0,0] and positive value 1
    the sensitivity is 1/2. *)
Theorem sensitivity_specificity_union :
  (forall (A : Type) (D : DType A) (self : BinaryPrediction A)
          (fitted real : list A),
     over self fitted real ->
     BinaryPrediction.sensitivity self =
       Ok (true_divide
             (count_indices (length fitted)
                (fun i => is_positive fitted (value_positive self) i &&
                          is_positive real (value_positive self) i))
             (count_indices (length fitted)
                (fun i => is_positive fitted (value_positive self) i ||
                          is_positive real (value_positive self) i))) /\
     BinaryPrediction.specificity self =
       Ok (true_divide
             (count_indices (length fitted)
                (fun i => is_negative fitted (value_positive self) i &&
                          is_negative real (value_positive self) i))
             (count_indices (length fitted)
                (fun i => is_negative fitted (value_positive self) i ||
                          is_negative real (value_positive self) i)))) /\
  (forall self : BinaryPrediction Z,
     over self [1; 1; 0; 0]%Z [1; 0; 0; 0]%Z -> value_positive self = 1%Z ->
     BinaryPrediction.sensitivity self = Ok (Finite (1 # 2)) /\
     BinaryPrediction.specificity self = Ok (Finite (2 # 3))).
Proof.
  split.
  - intros A D self fitted real Hover. split.
    + apply (sensitivity_over self fitted real Hover).
    + apply (specificity_over self fitted real Hover).
  - intros self Hover Hv.
    rewrite (sensitivity_over self _ _ Hover), (specificity_over self _ _ Hover).
    rewrite Hv. split; reflexivity.
Qed.

Lemma sensitivity_specificity_union_witness :
  exists self : BinaryPrediction Z,
    BinaryPrediction.__init__ (PyList [1; 1; 0; 0]%Z)
      (Some (PyList [1; 0; 0; 0]%Z)) 1%Z = Ok self /\
    BinaryPrediction.sensitivity self = Ok (Finite (1 # 2)) /\
    BinaryPrediction.specificity self = Ok (Finite (2 # 3)).
Proof.
  eexists. split; [reflexivity |].
  apply (proj2 sensitivity_specificity_union
           {| base := Prediction._lists_to_nparray (PyList [1; 1; 0; 0]%Z)
                        (Some (PyList [1; 0; 0; 0]%Z));
              value_positive := 1%Z |}).
  - repeat split.
  - reflexivity.
Defined.

(** C10.  For a [BinaryPrediction] over [fitted] and [real] of one length N,
    [confusion_matrix(as_dataframe=False)] returns a 2x2 matrix whose four
    entries sum to N. *)
Theorem confusion_matrix_sums_to_length {A : Type} `{DType A}
    (self : BinaryPrediction A) (fitted real : list A) :
  over self fitted real ->
  exists neg_neg pos_neg neg_pos pos_pos,
    BinaryPrediction.confusion_matrix self false =
      Ok (Some [[neg_neg; pos_neg]; [neg_pos; pos_pos]]) /\
    neg_neg + pos_neg + neg_pos + pos_pos = length fitted /\
    length fitted = Prediction.__len__ self.
Proof.
  intros Hover. do 4 eexists.
  split; [apply (confusion_matrix_over self fitted real false Hover) |].
  split.
  - pose proof (count_indices_partition (length fitted)
                  (is_positive fitted (value_positive self))
                  (is_positive real (value_positive self))) as Hsum.
    unfold is_negative. exact Hsum.
  - destruct Hover as (<- & _). reflexivity.
Qed.

Lemma confusion_matrix_sums_to_length_witness :
  exists (self : BinaryPrediction Z) (a b c d : nat),
    BinaryPrediction.__init__ (PyList [1; 1; 0; 0]%Z)
      (Some (PyList [1; 0; 0; 0]%Z)) 1%Z = Ok self /\
    BinaryPrediction.confusion_matrix self false = Ok (Some [[a; b]; [c; d]]) /\
    a + b + c + d = 4.
Proof.
  destruct (confusion_matrix_sums_to_length
              {| base := Prediction._lists_to_nparray (PyList [1; 1; 0; 0]%Z)
                           (Some (PyList [1; 0; 0; 0]%Z));
                 value_positive := 1%Z |}
              [1; 1; 0; 0]%Z [1; 0; 0; 0]%Z)
    as (a & b & c & d & Hconf & Hsum & _).
  - repeat split.
  - eexists _, a, b, c, d. split; [reflexivity |]. split; assumption.
Defined.

(** The two remaining rates on the same data: one false positive among the
    three actual negatives, no false negative on the one actual positive. *)
Example false_rates_example :
  exists self : BinaryPrediction Z,
    BinaryPrediction.__init__ (PyList [1; 1; 0; 0]%Z)
      (Some (PyList [1; 0; 0; 0]%Z)) 1%Z = Ok self /\
    BinaryPrediction.false_positive_rate self = Ok (Finite (1 # 3)) /\
    BinaryPrediction.false_negative_rate self = Ok (Finite (0 # 1)).
Proof. eexists. repeat split. Qed.

(** ** BinaryPrediction: value_negative *)

Example value_negative_of_labels :
  exists self : BinaryPrediction string,
    BinaryPrediction.__init__ (PyList ["yes"; "no"; "yes"]%string)
      (Some (PyList ["yes"; "no"; "maybe"]%string)) "yes"%string = Ok self /\
    BinaryPrediction.value_negative self = Ok "no"%string /\
    BinaryPrediction.confusion_matrix self false = Ok (Some [[1; 1]; [0; 1]]).
Proof. eexists. repeat split. Qed.

Lemma boolean_index_map {X : Type} (g : X -> bool) (l : list X) :
  boolean_index l (map g l) = List.filter g l.
Proof.
  unfold boolean_index. induction l as [| x l IH]; [reflexivity |].
  cbn [map zip zip_with List.filter snd]. destruct (g x); cbn [map fst];
    rewrite IH; reflexivity.
Qed.

Lemma filter_first {X : Type} (g : X -> bool) (l : list X) :
  Exists (fun x => g x = true) l ->
  exists before x after,
    l = before ++ x :: after /\
    Forall (fun y => g y = false) before /\
    g x = true /\
    List.filter g l = x :: List.filter g after.
Proof.
  induction l as [| y l IH]; intros Hex; [inversion Hex |].
  destruct (g y) eqn:Hy.
  - exists [], y, l. simpl. rewrite Hy. auto.
  - destruct IH as (before & x & after & -> & Hbefore & Hx & Hfilter).
    + inversion Hex as [? ? Hhere | ? ? Hlater]; [congruence | assumption].
    + exists (y :: before), x, after. simpl. rewrite Hy.
      repeat split; try assumption. constructor; assumption.
Qed.

Lemma filter_none {X : Type} (g : X -> bool) (l : list X) :
  Forall (fun y => g y = false) l -> List.filter g l = [].
Proof.
  induction 1 as [| y l Hy _ IH]; [reflexivity |].
  simpl. rewrite Hy. exact IH.
Qed.

(** C7.  For a [BinaryPrediction] whose real values hold an element that is
    not equal to [value_positive], [value_negative] finds the first such
    element: every element before it equals [value_positive].  From a Series
    it returns that element; from an ndarray it returns [copy()] of it,
    which is the element for the numpy scalars of an int64, float64 or str
    array and an [AttributeError] for the Python objects of an object array.
    When every element equals [value_positive] the accessor raises (an
    [IndexError] on an array, a [KeyError] on a Series) and returns no
    value.  On the object array [1, 2 ** 64] with positive value 1 the
    accessor raises the [AttributeError], where the same values in a Series
    give [2 ** 64]. *)
Theorem value_negative_copy_of_first_other :
  (forall (A : Type) (D : DType A) (E : ArrayEntry A)
          (self : BinaryPrediction A) (real : array A),
     real_values self = Some real ->
     (Exists (fun x => np_equal x (value_positive self) = false) (values_of real) ->
      exists before x after,
        values_of real = before ++ x :: after /\
        Forall (fun y => np_equal y (value_positive self) = true) before /\
        np_equal x (value_positive self) = false /\
        BinaryPrediction.value_negative self =
          (if is_ndarray real then entry_copy x else Ok x)) /\
     (Forall (fun y => np_equal y (value_positive self) = true) (values_of real) ->
      raises (BinaryPrediction.value_negative self) /\
      BinaryPrediction.value_negative self =
        Raise (if is_ndarray real then IndexError else KeyError))) /\
  (forall (self : BinaryPrediction Z) (real : array Z),
     real_values self = Some real ->
     Exists (fun x => np_equal x (value_positive self) = false) (values_of real) ->
     exists before x after,
       values_of real = before ++ x :: after /\
       Forall (fun y => np_equal y (value_positive self) = true) before /\
       np_equal x (value_positive self) = false /\
       BinaryPrediction.value_negative self = Ok x) /\
  (forall self : BinaryPrediction pyobject,
     value_positive self = PyInt 1 ->
     (real_values self = Some (NdArray [PyInt 1; PyInt (2 ^ 64)]) ->
      BinaryPrediction.value_negative self = Raise AttributeError) /\
     (real_values self = Some (Series [PyInt 1; PyInt (2 ^ 64)]) ->
      BinaryPrediction.value_negative self = Ok (PyInt (2 ^ 64)))).
Proof.
  assert (Hgeneral :
    forall (A : Type) (D : DType A) (E : ArrayEntry A)
           (self : BinaryPrediction A) (real : array A),
      real_values self = Some real ->
      (Exists (fun x => np_equal x (value_positive self) = false) (values_of real) ->
       exists before x after,
         values_of real = before ++ x :: after /\
         Forall (fun y => np_equal y (value_positive self) = true) before /\
         np_equal x (value_positive self) = false /\
         BinaryPrediction.value_negative self =
           (if is_ndarray real then entry_copy x else Ok x)) /\
      (Forall (fun y => np_equal y (value_positive self) = true) (values_of real) ->
       raises (BinaryPrediction.value_negative self) /\
       BinaryPrediction.value_negative self =
         Raise (if is_ndarray real then IndexError else KeyError))).
  { intros A D E self real Hreal. unfold BinaryPrediction.value_negative.
    rewrite Hreal, boolean_index_map. split.
    - intros Hex.
      destruct (filter_first (fun x => np_not_equal x (value_positive self))
                  (values_of real))
        as (before & x & after & Hsplit & Hbefore & Hx & ->).
      { eapply Exists_impl; [exact Hex |]. intros y Hy. unfold np_not_equal.
        simpl in Hy. rewrite Hy. reflexivity. }
      exists before, x, after. split; [exact Hsplit |]. split.
      { eapply Forall_impl; [exact Hbefore |]. intros y Hy.
        unfold np_not_equal in Hy. simpl in Hy. apply negb_false_iff in Hy.
        exact Hy. }
      split.
      { unfold np_not_equal in Hx. apply negb_true_iff in Hx. exact Hx. }
      destruct (is_ndarray real); reflexivity.
    - intros Hall.
      rewrite (filter_none (fun x => np_not_equal x (value_positive self)))
        by (eapply Forall_impl; [exact Hall |]; intros y Hy; unfold np_not_equal;
            simpl in Hy; rewrite Hy; reflexivity).
      destruct (is_ndarray real); split; try reflexivity; apply raises_Raise. }
  split; [exact Hgeneral |]. split.
  - intros self real Hreal Hex.
    destruct (proj1 (Hgeneral Z _ _ self real Hreal) Hex)
      as (before & x & after & Hsplit & Hbefore & Hx & Hvalue).
    exists before, x, after. repeat (split; [assumption |]).
    rewrite Hvalue. destruct (is_ndarray real); reflexivity.
  - intros self Hv. split; intros Hreal;
      unfold BinaryPrediction.value_negative; rewrite Hreal, Hv; reflexivity.
Qed.

Lemma value_negative_copy_of_first_other_witness :
  (exists self : BinaryPrediction Z,
     BinaryPrediction.__init__ (PyList [1; 1; 0; 2]%Z)
       (Some (PyList [1; 1; 7; 0]%Z)) 1%Z = Ok self /\
     exists before x after,
       [1; 1; 7; 0]%Z = before ++ x :: after /\
       Forall (fun y => np_equal y 1%Z = true) before /\
       np_equal x 1%Z = false /\
       BinaryPrediction.value_negative self = Ok x) /\
  (exists self : BinaryPrediction Z,
     BinaryPrediction.__init__ (PyList [1; 0]%Z)
       (Some (PyArray (Series [1; 1]%Z))) 1%Z = Ok self /\
     raises (BinaryPrediction.value_negative self) /\
     BinaryPrediction.value_negative self = Raise KeyError) /\
  (exists self : BinaryPrediction pyobject,
     BinaryPrediction.__init__ (PyList [PyInt 1; PyInt (2 ^ 64)])
       (Some (PyList [PyInt 1; PyInt (2 ^ 64)])) (PyInt 1) = Ok self /\
     BinaryPrediction.value_negative self = Raise AttributeError).
Proof.
  split; [| split].
  - eexists. split; [reflexivity |].
    apply (proj1 (proj2 value_negative_copy_of_first_other)
             {| base := Prediction._lists_to_nparray (PyList [1; 1; 0; 2]%Z)
                          (Some (PyList [1; 1; 7; 0]%Z));
                value_positive := 1%Z |}
             (NdArray [1; 1; 7; 0]%Z) eq_refl).
    apply Exists_cons_tl, Exists_cons_tl, Exists_cons_hd. reflexivity.
  - eexists. split; [reflexivity |].
    apply (proj2 (proj1 value_negative_copy_of_first_other Z _ _
                    {| base := Prediction._lists_to_nparray (PyList [1; 0]%Z)
                                 (Some (PyArray (Series [1; 1]%Z)));
                       value_positive := 1%Z |}
                    (Series [1; 1]%Z) eq_refl)).
    repeat constructor.
  - eexists. split; [reflexivity |].
    apply (proj1 (proj2 (proj2 value_negative_copy_of_first_other)
                    {| base := Prediction._lists_to_nparray
                                 (PyList [PyInt 1; PyInt (2 ^ 64)])
                                 (Some (PyList [PyInt 1; PyInt (2 ^ 64)]));
                       value_positive := PyInt 1 |}
                    eq_refl)).
    reflexivity.
Defined.

(** ** Construction without real values *)

Section WithoutRealValues.
Context {A : Type} `{Numeric A}.

Lemma init_without_real (fitted_values : arraylike A) :
  Prediction.__init__ fitted_values None =
  Ok (Prediction._lists_to_nparray fitted_values None).
Proof. reflexivity. Qed.

Lemma real_minus_fitted_without_real (self : Prediction A) (fitted : list A) :
  without_real self fitted -> fitted <> [] ->
  NumericPrediction.real_minus_fitted self = Raise TypeError.
Proof.
  intros (Hfit & Hreal) Hne. unfold NumericPrediction.real_minus_fitted.
  rewrite Hreal, Hfit. destruct fitted; [contradiction | reflexivity].
Qed.

End WithoutRealValues.

(** C8, as the code has it.  With [real_values] absent the length check is
    skipped and the construction succeeds for any fitted values, keeping
    [real_values] as [None].  The metrics are not guarded: on a prediction
    that is not empty [residuals] and the tolerance [matches] raise a
    [TypeError] when called, while the equality metrics do not fail:
    [matches] is [False] throughout and [percentage_correctly_classified] is
    0 over N. *)
Theorem init_without_real_values {A : Type} `{Numeric A}
    (fitted_values : arraylike A) :
  Prediction._check_lengths_match fitted_values None = Ok tt /\
  exists self,
    Prediction.__init__ fitted_values None = Ok self /\
    without_real self (items fitted_values) /\
    Prediction.matches self = Ok (map (fun _ => false) (items fitted_values)) /\
    Prediction.percentage_correctly_classified self =
      Ok (true_divide 0 (len fitted_values)) /\
    (len fitted_values <> 0 ->
     forall (squared absolute_value : bool) (tolerance : A),
       NumericPrediction.residuals self squared absolute_value = Raise TypeError /\
       NumericPrediction.matches self tolerance = Raise TypeError).
Proof.
  split; [reflexivity |].
  exists (Prediction._lists_to_nparray fitted_values None).
  assert (Hwithout : without_real
            (Prediction._lists_to_nparray fitted_values None)
            (items fitted_values)).
  { split; [apply values_of_list_to_nparray | reflexivity]. }
  split; [apply init_without_real |]. split; [exact Hwithout |].
  split; [| split].
  - unfold Prediction.matches, Prediction.real_equals_fitted. simpl.
    rewrite values_of_list_to_nparray. reflexivity.
  - unfold Prediction.percentage_correctly_classified,
      Prediction.real_equals_fitted. simpl.
    rewrite values_of_list_to_nparray. unfold np_mean.
    rewrite count_true_all_false, length_map, len_items. reflexivity.
  - intros Hlen squared absolute_value tolerance.
    assert (Hne : items fitted_values <> []).
    { intros Hnil. apply Hlen. rewrite len_items, Hnil. reflexivity. }
    unfold NumericPrediction.residuals, NumericPrediction.matches.
    rewrite (real_minus_fitted_without_real _ _ Hwithout Hne).
    split; reflexivity.
Qed.

Lemma init_without_real_values_witness :
  exists self : Prediction Z,
    Prediction.__init__ (PyList [1; 2]%Z) None = Ok self /\
    real_values self = None /\
    Prediction.percentage_correctly_classified self = Ok (Finite (0 # 2)) /\
    NumericPrediction.residuals self false false = Raise TypeError /\
    NumericPrediction.matches self 0%Z = Raise TypeError.
Proof.
  destruct (init_without_real_values (PyList [1; 2]%Z))
    as (_ & self & Hinit & (_ & Hnone) & _ & Hrate & Hraise).
  destruct (Hraise ltac:(simpl; lia) false false 0%Z) as [Hres Hmatches].
  exists self. repeat split; assumption.
Defined.

(** C8 as the specification words it fails: a metric that needs the real
    values need not fail.  On fitted [1, 2] without real values
    [percentage_correctly_classified] raises nothing and returns 0. *)
Lemma pcc_returns_without_real_values :
  exists self : Prediction Z,
    Prediction.__init__ (PyList [1; 2]%Z) None = Ok self /\
    Prediction.percentage_correctly_classified self = Ok (Finite (0 # 2)) /\
    ~ raises (Prediction.percentage_correctly_classified self).
Proof.
  eexists. split; [reflexivity |]. split; [reflexivity |].
  intros [e He]. discriminate He.
Qed.

(** * Further properties *)

(** ** Counting, continued *)

Lemma count_indices_sum (n : nat) (P Q R : nat -> bool) :
  (forall i, i < n -> Nat.b2n (R i) = Nat.b2n (P i) + Nat.b2n (Q i)) ->
  count_indices n R = count_indices n P + count_indices n Q.
Proof.
  induction n as [| n IH]; intros Hsum; [reflexivity |].
  rewrite !count_indices_S, (Hsum n), IH by (intros; auto with lia). lia.
Qed.

Lemma count_indices_zero (n : nat) (P : nat -> bool) :
  count_indices n P = 0 <-> forall i, i < n -> P i = false.
Proof.
  induction n as [| n IH]; [split; [intros _ i Hi; lia | reflexivity] |].
  rewrite count_indices_S. split.
  - intros Hzero i Hi. destruct (P n) eqn:Hn; simpl in Hzero; [lia |].
    destruct (Nat.eq_dec i n) as [-> | Hne]; [exact Hn |].
    apply IH; lia.
  - intros Hall. rewrite (Hall n) by lia. simpl.
    rewrite (proj2 IH); [reflexivity |]. intros i Hi. apply Hall. lia.
Qed.

Lemma count_indices_full (n : nat) (P : nat -> bool) :
  count_indices n P = n <-> forall i, i < n -> P i = true.
Proof.
  induction n as [| n IH]; [split; [intros _ i Hi; lia | reflexivity] |].
  rewrite count_indices_S. pose proof (count_indices_le n P) as Hle. split.
  - intros Hfull i Hi. destruct (P n) eqn:Hn; simpl in Hfull; [| lia].
    destruct (Nat.eq_dec i n) as [-> | Hne]; [exact Hn |].
    apply IH; lia.
  - intros Hall. rewrite (Hall n) by lia. simpl.
    rewrite (proj2 IH); [lia |]. intros i Hi. apply Hall. lia.
Qed.

Lemma count_indices_mono (n : nat) (P Q : nat -> bool) :
  (forall i, i < n -> P i = true -> Q i = true) ->
  count_indices n P <= count_indices n Q.
Proof.
  induction n as [| n IH]; intros Himp; [reflexivity |].
  rewrite !count_indices_S.
  assert (Hn : Nat.b2n (P n) <= Nat.b2n (Q n)).
  { destruct (P n) eqn:HP; [rewrite (Himp n) by (auto with lia) |];
      simpl; lia. }
  assert (Hrest : count_indices n P <= count_indices n Q).
  { apply IH. intros i Hi. apply Himp. lia. }
  lia.
Qed.

Lemma count_indices_and_or (n : nat) (P Q : nat -> bool) :
  count_indices n (fun i => P i && Q i) =
  count_indices n (fun i => P i || Q i) <->
  forall i, i < n -> P i = Q i.
Proof.
  induction n as [| n IH]; [split; [intros _ i Hi; lia | reflexivity] |].
  rewrite !count_indices_S.
  assert (Hle : count_indices n (fun i => P i && Q i) <=
                count_indices n (fun i => P i || Q i)).
  { apply count_indices_mono. intros i _ Hi.
    apply andb_true_iff in Hi as [-> _]. reflexivity. }
  split.
  - intros Heq i Hi.
    destruct (Nat.eq_dec i n) as [-> | Hne].
    + destruct (P n), (Q n); simpl in Heq; try reflexivity; lia.
    + apply IH; [| lia]. destruct (P n), (Q n); simpl in Heq; lia.
  - intros Hall. rewrite (Hall n) by lia.
    rewrite (proj2 IH) by (intros i Hi; apply Hall; lia).
    destruct (Q n); reflexivity.
Qed.

Lemma count_true_map {X : Type} (g : X -> bool) (l : list X) :
  count_true (map g l) =
  count_indices (length l)
    (fun i => match l !! i with Some x => g x | None => false end).
Proof.
  rewrite count_true_lookup, length_map. apply count_indices_ext.
  intros i _. rewrite lookup_map. destruct (l !! i); reflexivity.
Qed.

(** ** Quotients, continued *)

Lemma true_divide_not_Infinite (k n : nat) :
  k <= n -> true_divide k n <> Infinite.
Proof.
  intros Hk. destruct n as [| n]; simpl; [| discriminate].
  replace k with 0 by lia. discriminate.
Qed.

Lemma true_divide_is_one (k n : nat) :
  is_one (true_divide k n) <-> n <> 0 /\ k = n.
Proof.
  destruct n as [| n]; simpl.
  - destruct (k =? 0); simpl; split; try tauto; intros [Hn _]; contradiction.
  - unfold Qeq. simpl Qnum. simpl Qden. split; [intros Heq | intros [_ Heq]]; lia.
Qed.

Lemma true_divide_is_zero (k n : nat) :
  is_zero (true_divide k n) <-> n <> 0 /\ k = 0.
Proof.
  destruct n as [| n]; simpl.
  - destruct (k =? 0); simpl; split; try tauto; intros [Hn _]; contradiction.
  - unfold Qeq. simpl Qnum. simpl Qden. split; [intros Heq | intros [_ Heq]]; lia.
Qed.

(** ** BinaryPrediction: the false rates *)

Section FalseRates.
Context {A : Type} `{DType A}.
Implicit Types (self : BinaryPrediction A) (fitted real : list A).

Lemma false_positive_rate_over self fitted real :
  over self fitted real ->
  BinaryPrediction.false_positive_rate self =
  Ok (true_divide
        (count_indices (length fitted)
           (fun i => is_positive fitted (value_positive self) i &&
                     is_negative real (value_positive self) i))
        (count_indices (length fitted)
           (is_negative real (value_positive self)))).
Proof.
  intros Hover. unfold BinaryPrediction.false_positive_rate.
  destruct (binary_masks self fitted real Hover) as (-> & _ & _ & ->).
  destruct Hover as (_ & _ & Hlen). unfold mask_and.
  rewrite mask_binop_aligned by (rewrite !length_map; exact Hlen).
  repeat first [rewrite bind_Ok | progress (simpl mask_sum)].
  rewrite (count_classes andb _ _
             (is_positive fitted (value_positive self))
             (is_negative real (value_positive self)))
    by (try exact Hlen; intros;
        first [apply is_positive_lookup | apply is_negative_lookup]; assumption).
  rewrite count_true_map, <- Hlen. do 2 f_equal.
  apply count_indices_ext. intros i Hi.
  destruct (lookup_lt_is_Some_2 real i ltac:(lia)) as [y Hy].
  rewrite Hy. apply is_negative_lookup, Hy.
Qed.

Lemma false_negative_rate_over self fitted real :
  over self fitted real ->
  BinaryPrediction.false_negative_rate self =
  Ok (true_divide
        (count_indices (length fitted)
           (fun i => is_negative fitted (value_positive self) i &&
                     is_positive real (value_positive self) i))
        (count_indices (length fitted)
           (is_positive real (value_positive self)))).
Proof.
  intros Hover. unfold BinaryPrediction.false_negative_rate.
  destruct (binary_masks self fitted real Hover) as (_ & -> & -> & _).
  destruct Hover as (_ & _ & Hlen). unfold mask_and.
  rewrite mask_binop_aligned by (rewrite !length_map; exact Hlen).
  repeat first [rewrite bind_Ok | progress (simpl mask_sum)].
  rewrite (count_classes andb _ _
             (is_negative fitted (value_positive self))
             (is_positive real (value_positive self)))
    by (try exact Hlen; intros;
        first [apply is_positive_lookup | apply is_negative_lookup]; assumption).
  rewrite count_true_map, <- Hlen. do 2 f_equal.
Qed.

End FalseRates.

Lemma count_indices_split (n : nat) (P Q : nat -> bool) :
  count_indices n Q =
  count_indices n (fun i => negb (P i) && Q i) +
  count_indices n (fun i => P i && Q i).
Proof.
  apply count_indices_sum. intros i _. destruct (P i), (Q i); reflexivity.
Qed.

Lemma count_indices_union (n : nat) (P Q : nat -> bool) :
  count_indices n (fun i => P i || Q i) =
  count_indices n (fun i => P i && negb (Q i)) +
  count_indices n (fun i => negb (P i) && Q i) +
  count_indices n (fun i => P i && Q i).
Proof.
  induction n as [| n IH]; [reflexivity |].
  rewrite !count_indices_S, IH. destruct (P n), (Q n); simpl; lia.
Qed.

(** X1.  [false_positive_rate] is the number of predicted positives among
    the actual negatives over the number of actual negatives, and
    [false_negative_rate] the number of predicted negatives among the actual
    positives over the number of actual positives.  With no actual negative
    (positive) the division is 0 / 0: the rate is NaN, never infinite and
    never an error; otherwise it lies in [0, 1]. *)
Theorem false_rates_range {A : Type} `{DType A}
    (self : BinaryPrediction A) (fitted real : list A) :
  over self fitted real ->
  exists fpr fnr,
    BinaryPrediction.false_positive_rate self = Ok fpr /\
    BinaryPrediction.false_negative_rate self = Ok fnr /\
    fpr = true_divide
            (count_indices (length fitted)
               (fun i => is_positive fitted (value_positive self) i &&
                         is_negative real (value_positive self) i))
            (count_indices (length fitted)
               (is_negative real (value_positive self))) /\
    fnr = true_divide
            (count_indices (length fitted)
               (fun i => is_negative fitted (value_positive self) i &&
                         is_positive real (value_positive self) i))
            (count_indices (length fitted)
               (is_positive real (value_positive self))) /\
    (fpr = Nan <->
     forall i, i < length fitted -> is_positive real (value_positive self) i = true) /\
    (fnr = Nan <->
     forall i, i < length fitted -> is_positive real (value_positive self) i = false) /\
    fpr <> Infinite /\ fnr <> Infinite /\
    (fpr <> Nan -> in_unit_interval fpr) /\
    (fnr <> Nan -> in_unit_interval fnr).
Proof.
  intros Hover. set (v := value_positive self). set (n := length fitted).
  assert (Hfp : count_indices n
                  (fun i => is_positive fitted v i && is_negative real v i) <=
                count_indices n (is_negative real v)).
  { apply count_indices_mono. intros i _ Hi.
    apply andb_true_iff in Hi as [_ Hi]. exact Hi. }
  assert (Hfn : count_indices n
                  (fun i => is_negative fitted v i && is_positive real v i) <=
                count_indices n (is_positive real v)).
  { apply count_indices_mono. intros i _ Hi.
    apply andb_true_iff in Hi as [_ Hi]. exact Hi. }
  do 2 eexists.
  split; [apply (false_positive_rate_over self fitted real Hover) |].
  split; [apply (false_negative_rate_over self fitted real Hover) |].
  fold v n. split; [reflexivity |]. split; [reflexivity |].
  split.
  { rewrite (true_divide_Nan _ _ Hfp), count_indices_zero.
    unfold is_negative. split; intros Hall i Hi; specialize (Hall i Hi).
    - apply negb_false_iff in Hall. exact Hall.
    - rewrite Hall. reflexivity. }
  split; [rewrite (true_divide_Nan _ _ Hfn); apply count_indices_zero |].
  split; [apply true_divide_not_Infinite, Hfp |].
  split; [apply true_divide_not_Infinite, Hfn |].
  split; intros Hnan; apply true_divide_unit; try assumption;
    intros Hzero; apply Hnan; apply true_divide_Nan; assumption.
Qed.

Lemma false_rates_range_witness :
  exists self : BinaryPrediction Z,
    BinaryPrediction.__init__ (PyList [1; 1; 0; 0]%Z)
      (Some (PyList [1; 1; 1; 1]%Z)) 1%Z = Ok self /\
    BinaryPrediction.false_positive_rate self = Ok Nan /\
    exists fnr,
      BinaryPrediction.false_negative_rate self = Ok fnr /\
      in_unit_interval fnr.
Proof.
  destruct (false_rates_range
              {| base := Prediction._lists_to_nparray (PyList [1; 1; 0; 0]%Z)
                           (Some (PyList [1; 1; 1; 1]%Z));
                 value_positive := 1%Z |}
              [1; 1; 0; 0]%Z [1; 1; 1; 1]%Z)
    as (fpr & fnr & Hfpr & Hfnr & -> & -> & _ & _ & _ & _ & _ & Hunit).
  - repeat split.
  - eexists. split; [reflexivity |]. split; [exact Hfpr |].
    eexists. split; [exact Hfnr |]. apply Hunit. discriminate.
Defined.

(** X2.  The four rates read off the confusion matrix
    [[tn, fp], [fn, tp]] of the same prediction:
    [false_positive_rate = fp / (tn + fp)],
    [false_negative_rate = fn / (fn + tp)],
    [sensitivity = tp / (fp + fn + tp)] and
    [specificity = tn / (tn + fp + fn)]. *)
Theorem rates_from_confusion_matrix {A : Type} `{DType A}
    (self : BinaryPrediction A) (fitted real : list A) :
  over self fitted real ->
  exists tn fp fn tp,
    BinaryPrediction.confusion_matrix self false = Ok (Some [[tn; fp]; [fn; tp]]) /\
    BinaryPrediction.false_positive_rate self = Ok (true_divide fp (tn + fp)) /\
    BinaryPrediction.false_negative_rate self = Ok (true_divide fn (fn + tp)) /\
    BinaryPrediction.sensitivity self = Ok (true_divide tp (fp + fn + tp)) /\
    BinaryPrediction.specificity self = Ok (true_divide tn (tn + fp + fn)).
Proof.
  intros Hover. do 4 eexists.
  split; [apply (confusion_matrix_over self fitted real false Hover) |].
  set (v := value_positive self). set (n := length fitted).
  set (P := is_positive fitted v). set (Q := is_positive real v).
  split; [| split; [| split]].
  - rewrite (false_positive_rate_over self fitted real Hover). fold v n.
    do 2 f_equal. unfold is_negative. fold P Q.
    rewrite (count_indices_split n P (fun i => negb (Q i))). reflexivity.
  - rewrite (false_negative_rate_over self fitted real Hover). fold v n.
    do 2 f_equal. unfold is_negative. fold P Q.
    rewrite (count_indices_split n P Q). reflexivity.
  - rewrite (sensitivity_over self fitted real Hover). fold v n.
    do 2 f_equal. unfold is_negative. fold P Q.
    apply (count_indices_union n P Q).
  - rewrite (specificity_over self fitted real Hover). fold v n.
    do 2 f_equal. unfold is_negative. fold P Q.
    rewrite (count_indices_union n (fun i => negb (P i)) (fun i => negb (Q i))).
    assert (Hfp : count_indices n (fun i => negb (negb (P i)) && negb (Q i)) =
                  count_indices n (fun i => P i && negb (Q i))).
    { apply count_indices_ext. intros i _. rewrite negb_involutive. reflexivity. }
    assert (Hfn : count_indices n (fun i => negb (P i) && negb (negb (Q i))) =
                  count_indices n (fun i => negb (P i) && Q i)).
    { apply count_indices_ext. intros i _. rewrite negb_involutive. reflexivity. }
    rewrite Hfp, Hfn. lia.
Qed.

Lemma rates_from_confusion_matrix_witness :
  exists (self : BinaryPrediction Z) (tn fp fn tp : nat),
    BinaryPrediction.__init__ (PyList [1; 1; 0; 0]%Z)
      (Some (PyList [1; 0; 0; 0]%Z)) 1%Z = Ok self /\
    BinaryPrediction.confusion_matrix self false = Ok (Some [[tn; fp]; [fn; tp]]) /\
    BinaryPrediction.sensitivity self = Ok (true_divide tp (fp + fn + tp)) /\
    BinaryPrediction.false_positive_rate self = Ok (true_divide fp (tn + fp)).
Proof.
  destruct (rates_from_confusion_matrix
              {| base := Prediction._lists_to_nparray (PyList [1; 1; 0; 0]%Z)
                           (Some (PyList [1; 0; 0; 0]%Z));
                 value_positive := 1%Z |}
              [1; 1; 0; 0]%Z [1; 0; 0; 0]%Z)
    as (tn & fp & fn & tp & Hconf & Hfpr & _ & Hsens & _).
  - repeat split.
  - eexists _, tn, fp, fn, tp. split; [reflexivity |]. repeat split; assumption.
Defined.

(** ** BinaryPrediction: the union rates *)

Lemma union_rate_Nan (n : nat) (P Q : nat -> bool) :
  true_divide (count_indices n (fun i => P i && Q i))
    (count_indices n (fun i => P i || Q i)) = Nan <->
  forall i, i < n -> P i = false /\ Q i = false.
Proof.
  rewrite true_divide_Nan, count_indices_zero.
  - split; intros Hall i Hi; specialize (Hall i Hi).
    + apply orb_false_iff in Hall. exact Hall.
    + destruct Hall as [-> ->]. reflexivity.
  - apply count_indices_mono. intros i _ Hi.
    apply andb_true_iff in Hi as [-> _]. reflexivity.
Qed.

Lemma union_rate_one (n : nat) (P Q : nat -> bool) :
  is_one (true_divide (count_indices n (fun i => P i && Q i))
            (count_indices n (fun i => P i || Q i))) <->
  (exists i, i < n /\ (P i = true \/ Q i = true)) /\
  forall i, i < n -> P i = Q i.
Proof.
  rewrite true_divide_is_one, count_indices_and_or.
  assert (Hsome : count_indices n (fun i => P i || Q i) <> 0 <->
                  exists i, i < n /\ (P i = true \/ Q i = true)).
  { split.
    - intros Hne. induction n as [| n IH]; [contradiction |].
      rewrite count_indices_S in Hne. destruct (P n || Q n) eqn:Hn.
      + exists n. split; [lia |]. apply orb_true_iff. exact Hn.
      + destruct IH as (i & Hi & Hor); [simpl in Hne; lia |].
        exists i. split; [lia | exact Hor].
    - intros (i & Hi & Hor) Hzero.
      apply (proj1 (count_indices_zero _ _)) with (i := i) in Hzero; [| exact Hi].
      apply orb_false_iff in Hzero as [HP HQ]. destruct Hor; congruence. }
  rewrite Hsome. reflexivity.
Qed.

(** X3.  [sensitivity] is NaN exactly when no item is predicted or actually
    positive (0 / 0, no error), and otherwise lies in [0, 1]; it is 1
    exactly when some item is positive and the predicted and the actual
    positives are the same items.  [specificity] behaves likewise on the
    negatives. *)
Theorem union_rates_range {A : Type} `{DType A}
    (self : BinaryPrediction A) (fitted real : list A) :
  over self fitted real ->
  exists sens spec,
    BinaryPrediction.sensitivity self = Ok sens /\
    BinaryPrediction.specificity self = Ok spec /\
    (sens = Nan <->
     forall i, i < length fitted ->
       is_positive fitted (value_positive self) i = false /\
       is_positive real (value_positive self) i = false) /\
    (spec = Nan <->
     forall i, i < length fitted ->
       is_positive fitted (value_positive self) i = true /\
       is_positive real (value_positive self) i = true) /\
    sens <> Infinite /\ spec <> Infinite /\
    (sens <> Nan -> in_unit_interval sens) /\
    (spec <> Nan -> in_unit_interval spec) /\
    (is_one sens <->
     (exists i, i < length fitted /\
        (is_positive fitted (value_positive self) i = true \/
         is_positive real (value_positive self) i = true)) /\
     forall i, i < length fitted ->
       is_positive fitted (value_positive self) i =
       is_positive real (value_positive self) i) /\
    (is_one spec <->
     (exists i, i < length fitted /\
        (is_positive fitted (value_positive self) i = false \/
         is_positive real (value_positive self) i = false)) /\
     forall i, i < length fitted ->
       is_positive fitted (value_positive self) i =
       is_positive real (value_positive self) i).
Proof.
  intros Hover. set (v := value_positive self). set (n := length fitted).
  set (P := is_positive fitted v). set (Q := is_positive real v).
  assert (Hle : forall P' Q' : nat -> bool,
            count_indices n (fun i => P' i && Q' i) <=
            count_indices n (fun i => P' i || Q' i)).
  { intros P' Q'. apply count_indices_mono. intros i _ Hi.
    apply andb_true_iff in Hi as [-> _]. reflexivity. }
  do 2 eexists.
  split; [apply (sensitivity_over self fitted real Hover) |].
  split; [apply (specificity_over self fitted real Hover) |].
  fold v n. unfold is_negative. fold P Q.
  split; [apply (union_rate_Nan n P Q) |].
  split.
  { rewrite (union_rate_Nan n (fun i => negb (P i)) (fun i => negb (Q i))).
    split; intros Hall i Hi; destruct (Hall i Hi) as [HP HQ].
    - apply negb_false_iff in HP, HQ. auto.
    - rewrite HP, HQ. auto. }
  split; [apply true_divide_not_Infinite, Hle |].
  split; [apply true_divide_not_Infinite, Hle |].
  split.
  { intros Hnan. apply true_divide_unit; [apply Hle |].
    intros Hzero. apply Hnan. apply true_divide_Nan; [apply Hle | exact Hzero]. }
  split.
  { intros Hnan. apply true_divide_unit; [apply Hle |].
    intros Hzero. apply Hnan. apply true_divide_Nan; [apply Hle | exact Hzero]. }
  split; [apply (union_rate_one n P Q) |].
  rewrite (union_rate_one n (fun i => negb (P i)) (fun i => negb (Q i))).
  split; intros [(i & Hi & Hor) Hall]; split.
  - exists i. split; [exact Hi |].
    destruct Hor as [Hor | Hor]; apply negb_true_iff in Hor; auto.
  - intros j Hj. specialize (Hall j Hj). destruct (P j), (Q j); simpl in Hall; congruence.
  - exists i. split; [exact Hi |]. destruct Hor as [-> | ->]; auto.
  - intros j Hj. rewrite (Hall j Hj). reflexivity.
Qed.

Lemma union_rates_range_witness :
  exists (self : BinaryPrediction Z) (sens spec : quotient),
    BinaryPrediction.__init__ (PyList [1; 0; 0; 1]%Z)
      (Some (PyList [1; 0; 0; 1]%Z)) 1%Z = Ok self /\
    BinaryPrediction.sensitivity self = Ok sens /\
    BinaryPrediction.specificity self = Ok spec /\
    is_one sens /\ is_one spec.
Proof.
  destruct (union_rates_range
              {| base := Prediction._lists_to_nparray (PyList [1; 0; 0; 1]%Z)
                           (Some (PyList [1; 0; 0; 1]%Z));
                 value_positive := 1%Z |}
              [1; 0; 0; 1]%Z [1; 0; 0; 1]%Z)
    as (sens & spec & Hsens & Hspec & _ & _ & _ & _ & _ & _ & Hone & Hone').
  - repeat split.
  - eexists _, sens, spec. split; [reflexivity |].
    split; [exact Hsens |]. split; [exact Hspec |]. split.
    + apply Hone. split; [exists 0; split; [simpl; lia | left; reflexivity] |].
      intros i Hi. reflexivity.
    + apply Hone'. split; [exists 1; split; [simpl; lia | left; reflexivity] |].
      intros i Hi. reflexivity.
Defined.

Lemma true_divide_Finite (k n : nat) :
  n <> 0 -> true_divide k n = Finite (Z.of_nat k # Pos.of_nat n).
Proof. intros Hn. destruct n; [contradiction | reflexivity]. Qed.

Lemma Zpos_of_nat (n : nat) : n <> 0 -> Z.pos (Pos.of_nat n) = Z.of_nat n.
Proof.
  intros Hn. rewrite <- positive_nat_Z, Nat2Pos.id by exact Hn. reflexivity.
Qed.

(** [tp / (fp + fn + tp) + fn / (fn + tp)] against 1. *)
Lemma union_rate_plus_miss (fp fn tp : nat) :
  fn + tp <> 0 ->
  ((Z.of_nat tp # Pos.of_nat (fp + fn + tp)) +
   (Z.of_nat fn # Pos.of_nat (fn + tp)) <= 1)%Q /\
  (((Z.of_nat tp # Pos.of_nat (fp + fn + tp)) +
    (Z.of_nat fn # Pos.of_nat (fn + tp)) == 1)%Q <-> fp = 0 \/ tp = 0).
Proof.
  intros Hpos. unfold Qle, Qeq, Qplus. simpl Qnum. simpl Qden.
  rewrite !Pos2Z.inj_mul, !Zpos_of_nat by lia.
  split; [nia |]. split.
  - intros Heq. destruct fp as [| fp]; [auto |]. destruct tp as [| tp]; [auto |].
    exfalso. nia.
  - intros [-> | ->]; nia.
Qed.

(** X4.  The union in the denominator makes [sensitivity] at most the
    textbook recall: when some item is actually positive,
    [sensitivity + false_negative_rate <= 1], with equality exactly when
    there is no false positive or no true positive. *)
Theorem sensitivity_below_recall {A : Type} `{DType A}
    (self : BinaryPrediction A) (fitted real : list A) :
  over self fitted real ->
  (exists i, i < length fitted /\ is_positive real (value_positive self) i = true) ->
  exists sens fnr : Q,
    BinaryPrediction.sensitivity self = Ok (Finite sens) /\
    BinaryPrediction.false_negative_rate self = Ok (Finite fnr) /\
    (sens + fnr <= 1)%Q /\
    ((sens + fnr == 1)%Q <->
     count_indices (length fitted)
       (fun i => is_positive fitted (value_positive self) i &&
                 is_negative real (value_positive self) i) = 0 \/
     count_indices (length fitted)
       (fun i => is_positive fitted (value_positive self) i &&
                 is_positive real (value_positive self) i) = 0).
Proof.
  intros Hover (i & Hi & Hpos).
  set (v := value_positive self) in *. set (n := length fitted) in *.
  set (P := is_positive fitted v). set (Q := is_positive real v) in *.
  set (fp := count_indices n (fun i => P i && negb (Q i))).
  set (fn := count_indices n (fun i => negb (P i) && Q i)).
  set (tp := count_indices n (fun i => P i && Q i)).
  assert (Hreal : count_indices n Q = fn + tp) by apply count_indices_split.
  assert (Hunion : count_indices n (fun i => P i || Q i) = fp + fn + tp)
    by apply count_indices_union.
  assert (Hsome : fn + tp <> 0).
  { rewrite <- Hreal. intros Hzero.
    apply (proj1 (count_indices_zero _ _)) with (i := i) in Hzero; [| exact Hi].
    congruence. }
  exists (Z.of_nat tp # Pos.of_nat (fp + fn + tp)),
         (Z.of_nat fn # Pos.of_nat (fn + tp)).
  split.
  { rewrite (sensitivity_over self fitted real Hover). fold v n P Q tp.
    rewrite Hunion, true_divide_Finite by lia. reflexivity. }
  split.
  { rewrite (false_negative_rate_over self fitted real Hover). fold v n.
    unfold is_negative. fold P Q fn. rewrite Hreal, true_divide_Finite by lia.
    reflexivity. }
  unfold is_negative. fold P Q fp tp.
  apply union_rate_plus_miss, Hsome.
Qed.

Lemma sensitivity_below_recall_witness :
  exists (self : BinaryPrediction Z) (sens fnr : Q),
    BinaryPrediction.__init__ (PyList [1; 1; 0; 0]%Z)
      (Some (PyList [1; 0; 1; 0]%Z)) 1%Z = Ok self /\
    BinaryPrediction.sensitivity self = Ok (Finite sens) /\
    BinaryPrediction.false_negative_rate self = Ok (Finite fnr) /\
    (sens + fnr <= 1)%Q.
Proof.
  destruct (sensitivity_below_recall
              {| base := Prediction._lists_to_nparray (PyList [1; 1; 0; 0]%Z)
                           (Some (PyList [1; 0; 1; 0]%Z));
                 value_positive := 1%Z |}
              [1; 1; 0; 0]%Z [1; 0; 1; 0]%Z)
    as (sens & fnr & Hsens & Hfnr & Hle & _).
  - repeat split.
  - exists 0. split; [simpl; lia | reflexivity].
  - eexists _, sens, fnr. split; [reflexivity |]. repeat split; assumption.
Defined.

(** ** Exchanging the fitted and the real values *)

Lemma zip_with_np_equal_sym {A : Type} `{DType A} (xs ys : list A) :
  zip_with np_equal xs ys = zip_with np_equal ys xs.
Proof.
  revert ys. induction xs as [| x xs IH]; intros [| y ys]; try reflexivity.
  simpl. rewrite IH, np_equal_sym. reflexivity.
Qed.

(** X5.  Exchanging the two sequences of a [BinaryPrediction] leaves
    [matches], [percentage_correctly_classified], [sensitivity] and
    [specificity] unchanged and transposes the confusion matrix: the union
    rates do not tell a false positive from a false negative. *)
Theorem exchange_fitted_and_real {A : Type} `{DType A}
    (self exchanged : BinaryPrediction A) (fitted real : list A) :
  over self fitted real -> over exchanged real fitted ->
  value_positive exchanged = value_positive self ->
  Prediction.matches exchanged = Prediction.matches self /\
  Prediction.percentage_correctly_classified exchanged =
    Prediction.percentage_correctly_classified self /\
  BinaryPrediction.sensitivity exchanged = BinaryPrediction.sensitivity self /\
  BinaryPrediction.specificity exchanged = BinaryPrediction.specificity self /\
  exists tn fp fn tp,
    BinaryPrediction.confusion_matrix self false = Ok (Some [[tn; fp]; [fn; tp]]) /\
    BinaryPrediction.confusion_matrix exchanged false =
      Ok (Some [[tn; fn]; [fp; tp]]).
Proof.
  intros Hself Hexch Hv.
  assert (Hlen : length real = length fitted) by (destruct Hexch as (_ & _ & Hl); exact Hl).
  assert (Hcomm : forall (P Q : nat -> bool) (f : bool -> bool -> bool),
            (forall a b, f a b = f b a) ->
            count_indices (length real) (fun i => f (Q i) (P i)) =
            count_indices (length fitted) (fun i => f (P i) (Q i))).
  { intros P Q f Hf. rewrite Hlen. apply count_indices_ext. intros i _. apply Hf. }
  split; [| split; [| split; [| split]]].
  - unfold Prediction.matches.
    rewrite (real_equals_fitted_over _ _ _ Hself).
    rewrite (real_equals_fitted_over _ _ _ Hexch).
    rewrite zip_with_np_equal_sym. reflexivity.
  - unfold Prediction.percentage_correctly_classified.
    rewrite (real_equals_fitted_over _ _ _ Hself).
    rewrite (real_equals_fitted_over _ _ _ Hexch).
    rewrite zip_with_np_equal_sym. reflexivity.
  - rewrite (sensitivity_over self _ _ Hself), (sensitivity_over exchanged _ _ Hexch).
    rewrite Hv.
    rewrite (Hcomm (is_positive fitted (value_positive self))
               (is_positive real (value_positive self)) andb andb_comm).
    rewrite (Hcomm (is_positive fitted (value_positive self))
               (is_positive real (value_positive self)) orb orb_comm).
    reflexivity.
  - rewrite (specificity_over self _ _ Hself), (specificity_over exchanged _ _ Hexch).
    rewrite Hv.
    rewrite (Hcomm (is_negative fitted (value_positive self))
               (is_negative real (value_positive self)) andb andb_comm).
    rewrite (Hcomm (is_negative fitted (value_positive self))
               (is_negative real (value_positive self)) orb orb_comm).
    reflexivity.
  - do 4 eexists.
    split; [apply (confusion_matrix_over self fitted real false Hself) |].
    rewrite (confusion_matrix_over exchanged real fitted false Hexch). cbv zeta.
    rewrite Hv.
    rewrite (Hcomm (is_negative fitted (value_positive self))
               (is_negative real (value_positive self)) andb andb_comm).
    rewrite (Hcomm (is_negative fitted (value_positive self))
               (is_positive real (value_positive self)) andb andb_comm).
    rewrite (Hcomm (is_positive fitted (value_positive self))
               (is_negative real (value_positive self)) andb andb_comm).
    rewrite (Hcomm (is_positive fitted (value_positive self))
               (is_positive real (value_positive self)) andb andb_comm).
    reflexivity.
Qed.

Lemma exchange_fitted_and_real_witness :
  exists self exchanged : BinaryPrediction Z,
    BinaryPrediction.__init__ (PyList [1; 1; 0; 0]%Z)
      (Some (PyList [1; 0; 0; 0]%Z)) 1%Z = Ok self /\
    BinaryPrediction.__init__ (PyList [1; 0; 0; 0]%Z)
      (Some (PyList [1; 1; 0; 0]%Z)) 1%Z = Ok exchanged /\
    BinaryPrediction.sensitivity exchanged = BinaryPrediction.sensitivity self /\
    BinaryPrediction.confusion_matrix self false = Ok (Some [[2; 1]; [0; 1]]) /\
    BinaryPrediction.confusion_matrix exchanged false = Ok (Some [[2; 0]; [1; 1]]).
Proof.
  destruct (exchange_fitted_and_real
              {| base := Prediction._lists_to_nparray (PyList [1; 1; 0; 0]%Z)
                           (Some (PyList [1; 0; 0; 0]%Z));
                 value_positive := 1%Z |}
              {| base := Prediction._lists_to_nparray (PyList [1; 0; 0; 0]%Z)
                           (Some (PyList [1; 1; 0; 0]%Z));
                 value_positive := 1%Z |}
              [1; 1; 0; 0]%Z [1; 0; 0; 0]%Z)
    as (_ & _ & Hsens & _ & _).
  - repeat split.
  - repeat split.
  - reflexivity.
  - eexists _, _. split; [reflexivity |]. split; [reflexivity |].
    split; [exact Hsens |]. split; reflexivity.
Defined.

(** ** The extremes of percentage_correctly_classified *)

(** X6.  [percentage_correctly_classified] is 1 exactly when the prediction
    is not empty and every fitted value equals its real value, and 0 exactly
    when it is not empty and none does. *)
Theorem pcc_extremes {A : Type} `{DType A}
    (self : Prediction A) (fitted real : list A) :
  over self fitted real ->
  exists rate,
    Prediction.percentage_correctly_classified self = Ok rate /\
    (is_one rate <->
     length fitted <> 0 /\
     forall i, i < length fitted -> equal_at fitted real i = true) /\
    (is_zero rate <->
     length fitted <> 0 /\
     forall i, i < length fitted -> equal_at fitted real i = false).
Proof.
  intros Hover. eexists. split; [apply (pcc_over self fitted real Hover) |].
  rewrite true_divide_is_one, true_divide_is_zero.
  rewrite count_indices_full, count_indices_zero. tauto.
Qed.

Lemma pcc_extremes_witness :
  exists (self : Prediction Z) (rate : quotient),
    Prediction.__init__ (PyList [4; 5]%Z) (Some (PyList [4; 5]%Z)) = Ok self /\
    Prediction.percentage_correctly_classified self = Ok rate /\
    is_one rate.
Proof.
  destruct (pcc_extremes
              (Prediction._lists_to_nparray (PyList [4; 5]%Z) (Some (PyList [4; 5]%Z)))
              [4; 5]%Z [4; 5]%Z)
    as (rate & Hrate & Hone & _).
  - repeat split.
  - eexists _, rate. split; [reflexivity |]. split; [exact Hrate |].
    apply Hone. split; [simpl; lia |].
    intros [| [| i]] Hi; try reflexivity. simpl in Hi. lia.
Defined.

(** ** NumericPrediction over int64: the tolerance *)

Lemma count_true_mono (l k : list bool) :
  length l = length k ->
  (forall i, l !! i = Some true -> k !! i = Some true) ->
  count_true l <= count_true k.
Proof.
  intros Hlen Himp. rewrite !count_true_lookup, Hlen.
  apply count_indices_mono. intros i _ Hi.
  destruct (l !! i) as [[|] |] eqn:Hl; try discriminate Hi.
  rewrite (Himp i Hl). reflexivity.
Qed.

Section Int64Tolerance.
Local Open Scope Z_scope.

Ltac int64_lia :=
  unfold int64.in_range, int64.min_value, int64.max_value in *; lia.

Lemma int64_absolute_nonneg (r f : Z) :
  int64.in_range r -> int64.in_range f -> Z.abs (r - f) <> 2 ^ 63 ->
  0 <= int64.absolute (int64.sub r f).
Proof.
  unfold int64.in_range, int64.min_value, int64.max_value. intros Hr Hf Habs.
  unfold int64.absolute, int64.sub.
  assert (Hcases : - 2 ^ 63 <= r - f <= 2 ^ 63 - 1 \/
                   2 ^ 63 < r - f \/ r - f < - 2 ^ 63) by lia.
  destruct Hcases as [Hin | [Hhigh | Hlow]].
  - rewrite (int64_wrap_small (r - f)) by exact Hin.
    rewrite int64_wrap_small by int64_lia. lia.
  - rewrite (int64_wrap_shift (r - f) (-1)) by int64_lia.
    rewrite int64_wrap_small by int64_lia. lia.
  - rewrite (int64_wrap_shift (r - f) 1) by int64_lia.
    rewrite int64_wrap_small by int64_lia. lia.
Qed.

Lemma int64_equal_within (r f t : Z) :
  0 <= t -> np_equal r f = true ->
  np_less_equal (np_absolute (np_subtract r f)) t = true.
Proof.
  intros Ht Heq. apply Z.eqb_eq in Heq. subst f.
  change (Z.leb (int64.wrap (Z.abs (int64.wrap (r - r)))) t = true).
  rewrite Z.sub_diag. change (int64.wrap (Z.abs (int64.wrap 0))) with 0.
  apply Z.leb_le, Ht.
Qed.

Lemma int64_negative_tolerance (fitted real : list Z) (t : Z) :
  t < 0 -> int64_exact fitted real ->
  map (fun d => np_less_equal (np_absolute d) t) (zip_with np_subtract real fitted) =
  map (fun _ => false) fitted.
Proof.
  intros Ht. induction 1 as [| f r fitted real (Hf & Hr & Habs) _ IH]; [reflexivity |].
  cbn [zip_with map]. rewrite IH. f_equal.
  pose proof (int64_absolute_nonneg r f Hr Hf Habs) as Hnonneg.
  simpl. apply Z.leb_gt. lia.
Qed.

End Int64Tolerance.

(** X7.  Over int64 data a larger tolerance keeps every match: where
    [matches(t1)] is [True], so is [matches(t2)] for [t1 <= t2], and the
    number of matches does not decrease. *)
Theorem int64_matches_monotone (self : Prediction Z) (fitted real : list Z)
    (t1 t2 : Z) :
  over self fitted real -> (t1 <= t2)%Z ->
  exists m1 m2,
    NumericPrediction.matches self t1 = Ok m1 /\
    NumericPrediction.matches self t2 = Ok m2 /\
    length m1 = length fitted /\ length m2 = length fitted /\
    (forall i, m1 !! i = Some true -> m2 !! i = Some true) /\
    count_true m1 <= count_true m2.
Proof.
  intros Hover Ht. unfold NumericPrediction.matches.
  rewrite (real_minus_fitted_over _ _ _ Hover), !bind_Ok.
  destruct Hover as (_ & _ & Hlen).
  set (d := zip_with np_subtract real fitted).
  assert (Hd : length d = length fitted)
    by (apply length_zip_with_r_eq; exact Hlen).
  assert (Himp : forall i,
            map (fun x => np_less_equal (np_absolute x) t1) d !! i = Some true ->
            map (fun x => np_less_equal (np_absolute x) t2) d !! i = Some true).
  { intros i. rewrite !lookup_map. destruct (d !! i) as [x |]; [| discriminate].
    simpl. intros [= Hx]. f_equal. apply Z.leb_le in Hx. apply Z.leb_le. lia. }
  do 2 eexists. split; [reflexivity |]. split; [reflexivity |].
  rewrite !length_map. split; [exact Hd |]. split; [exact Hd |].
  split; [exact Himp |].
  apply count_true_mono; [rewrite !length_map; reflexivity | exact Himp].
Qed.

Lemma int64_matches_monotone_witness :
  exists (self : Prediction Z) (m1 m2 : list bool),
    NumericPrediction.__init__ (PyList [5; 5; 5]%Z) (Some (PyList [3; 4; 6]%Z)) =
      Ok self /\
    NumericPrediction.matches self 1%Z = Ok m1 /\
    NumericPrediction.matches self 2%Z = Ok m2 /\
    count_true m1 <= count_true m2.
Proof.
  destruct (int64_matches_monotone
              (Prediction._lists_to_nparray (PyList [5; 5; 5]%Z)
                 (Some (PyList [3; 4; 6]%Z)))
              [5; 5; 5]%Z [3; 4; 6]%Z 1%Z 2%Z)
    as (m1 & m2 & H1 & H2 & _ & _ & _ & Hle).
  - repeat split.
  - lia.
  - eexists _, m1, m2. split; [reflexivity |]. repeat split; assumption.
Defined.

(** X8.  Over int64 data and a tolerance that is not negative, every
    position where the fitted value equals the real value is a match, so
    [matches(tolerance)] has at least as many [True] as the equality test
    behind [percentage_correctly_classified].  A negative tolerance is not
    refused: where no residual has magnitude [2 ^ 63] it makes every entry
    [False], also at positions where the two values are equal. *)
Theorem int64_tolerance_sign (self : Prediction Z) (fitted real : list Z)
    (tolerance : Z) :
  over self fitted real ->
  ((0 <= tolerance)%Z ->
   exists e m,
     Prediction.matches self = Ok e /\
     NumericPrediction.matches self tolerance = Ok m /\
     (forall i, e !! i = Some true -> m !! i = Some true) /\
     count_true e <= count_true m) /\
  ((tolerance < 0)%Z -> int64_exact fitted real ->
   NumericPrediction.matches self tolerance = Ok (map (fun _ => false) fitted)).
Proof.
  intros Hover. split.
  - intros Ht. unfold Prediction.matches, NumericPrediction.matches.
    rewrite (real_equals_fitted_over _ _ _ Hover).
    rewrite (real_minus_fitted_over _ _ _ Hover), bind_Ok.
    destruct Hover as (_ & _ & Hlen).
    assert (Himp : forall i,
              zip_with np_equal real fitted !! i = Some true ->
              map (fun d => np_less_equal (np_absolute d) tolerance)
                (zip_with np_subtract real fitted) !! i = Some true).
    { intros i. rewrite lookup_map, !lookup_zip_with.
      destruct (real !! i) as [r |]; [| discriminate].
      destruct (fitted !! i) as [f |]; [| discriminate].
      simpl. intros [= Heq]. f_equal.
      apply (int64_equal_within r f tolerance Ht Heq). }
    do 2 eexists. split; [reflexivity |]. split; [reflexivity |].
    split; [exact Himp |]. apply count_true_mono; [| exact Himp].
    rewrite length_map, !length_zip_with_r_eq by exact Hlen. reflexivity.
  - intros Ht Hexact. unfold NumericPrediction.matches.
    rewrite (real_minus_fitted_over _ _ _ Hover), bind_Ok.
    rewrite (int64_negative_tolerance fitted real tolerance Ht Hexact).
    reflexivity.
Qed.

Lemma int64_tolerance_sign_witness :
  exists self : Prediction Z,
    NumericPrediction.__init__ (PyList [4; 5]%Z) (Some (PyList [4; 5]%Z)) = Ok self /\
    Prediction.matches self = Ok [true; true] /\
    NumericPrediction.matches self (-1)%Z = Ok [false; false] /\
    exists m,
      NumericPrediction.matches self 0%Z = Ok m /\ 2 <= count_true m.
Proof.
  assert (Hover : over
            (Prediction._lists_to_nparray (PyList [4; 5]%Z) (Some (PyList [4; 5]%Z)))
            [4; 5]%Z [4; 5]%Z) by (repeat split).
  assert (Hexact : int64_exact [4; 5]%Z [4; 5]%Z).
  { unfold int64_exact, int64.in_range, int64.min_value, int64.max_value.
    repeat constructor; simpl; lia. }
  destruct (int64_tolerance_sign _ _ _ 0%Z Hover) as [Hnonneg _].
  destruct (Hnonneg ltac:(lia)) as (e & m & He & Hm & _ & Hcount).
  destruct (int64_tolerance_sign _ _ _ (-1)%Z Hover) as [_ Hneg].
  specialize (Hneg ltac:(lia) Hexact).
  eexists. split; [reflexivity |]. split; [reflexivity |].
  split; [exact Hneg |]. exists m. split; [exact Hm |].
  assert (He' : e = [true; true]).
  { assert (Hcomp : Prediction.matches
                      (Prediction._lists_to_nparray (PyList [4; 5]%Z)
                         (Some (PyList [4; 5]%Z))) = Ok [true; true])
      by reflexivity.
    rewrite He in Hcomp. injection Hcomp as ->. reflexivity. }
  subst e. exact Hcount.
Defined.

(** ** Construction, continued *)

(** X9.  A successful construction keeps the values of both sequences in
    order, turns a list into an array and leaves a Series a Series; the
    length of the object is the length of the fitted values and, when real
    values are given, of the real values.  Constructing again from the
    stored fields returns the same object. *)
Theorem init_round_trip {A : Type}
    (fitted : arraylike A) (real : option (arraylike A)) (self : Prediction A) :
  Prediction.__init__ fitted real = Ok self ->
  values_of (fitted_values self) = items fitted /\
  option_map values_of (real_values self) = option_map items real /\
  is_ndarray (fitted_values self) = negb (passed_as_series fitted) /\
  (forall r a, real = Some r -> real_values self = Some a ->
     is_ndarray a = negb (passed_as_series r)) /\
  Prediction.__len__ self = len fitted /\
  (forall r, real = Some r -> Prediction.__len__ self = len r) /\
  Prediction.__init__ (PyArray (fitted_values self))
    (option_map PyArray (real_values self)) = Ok self.
Proof.
  intros Hinit.
  assert (Hself : self = Prediction._lists_to_nparray fitted real /\
                  forall r, real = Some r -> len fitted = len r).
  { destruct real as [r |].
    - destruct (Nat.eq_dec (len fitted) (len r)) as [Hlen | Hlen].
      + rewrite (init_aligned _ _ Hlen) in Hinit. injection Hinit as <-.
        split; [reflexivity |]. intros r' [= <-]. exact Hlen.
      + rewrite (init_mismatch _ _ Hlen) in Hinit. discriminate Hinit.
    - injection Hinit as <-. split; [reflexivity |]. intros r' Hr'. discriminate Hr'. }
  destruct Hself as [-> Hlen]. unfold Prediction.__len__. simpl.
  rewrite values_of_list_to_nparray, len_items.
  split; [reflexivity |].
  split; [destruct real as [r |]; simpl;
          [rewrite values_of_list_to_nparray |]; reflexivity |].
  split; [destruct fitted as [l | [l | l]]; reflexivity |].
  split.
  { intros r a -> [= <-]. destruct r as [l | [l | l]]; reflexivity. }
  split; [reflexivity |].
  split; [intros r Hr; rewrite <- !len_items; apply Hlen, Hr |].
  destruct real as [r |]; simpl.
  - rewrite init_aligned.
    + unfold Prediction._lists_to_nparray. simpl. reflexivity.
    + simpl. rewrite !values_of_list_to_nparray, <- !len_items. apply Hlen. reflexivity.
  - reflexivity.
Qed.

Lemma init_round_trip_witness :
  exists self : Prediction Z,
    Prediction.__init__ (PyList [1; 2; 3]%Z) (Some (PyArray (Series [1; 0; 3]%Z))) =
      Ok self /\
    fitted_values self = NdArray [1; 2; 3]%Z /\
    real_values self = Some (Series [1; 0; 3]%Z) /\
    Prediction.__len__ self = 3 /\
    Prediction.__init__ (PyArray (fitted_values self))
      (option_map PyArray (real_values self)) = Ok self.
Proof.
  eexists. split; [reflexivity |].
  destruct (init_round_trip (PyList [1; 2; 3]%Z) (Some (PyArray (Series [1; 0; 3]%Z)))
              _ eq_refl)
    as (_ & _ & _ & _ & Hlen & _ & Hagain).
  split; [reflexivity |]. split; [reflexivity |].
  split; [exact Hlen | exact Hagain].
Defined.

(** ** BinaryPrediction: a positive value that does not occur *)

Lemma is_positive_absent {A : Type} `{DType A} (values : list A) (v : A) (i : nat) :
  Forall (fun x => np_equal x v = false) values -> is_positive values v i = false.
Proof.
  intros Hall. unfold is_positive. destruct (values !! i) as [x |] eqn:Hx;
    [| reflexivity].
  apply (proj1 (Forall_lookup _ _) Hall i x Hx).
Qed.

(** X10.  The constructor of [BinaryPrediction] stores [value_positive]
    without looking for it in the data.  When it equals no fitted and no
    real value the object is built all the same and every item counts as
    negative: the confusion matrix is [[N, 0], [0, 0]], [sensitivity] and
    [false_negative_rate] are NaN, [false_positive_rate] is 0 over N and
    [specificity] is N over N. *)
Theorem value_positive_not_validated {A : Type} `{DType A}
    (fitted real : arraylike A) (v : A) (self : BinaryPrediction A) :
  BinaryPrediction.__init__ fitted (Some real) v = Ok self ->
  Forall (fun x => np_equal x v = false) (items fitted) ->
  Forall (fun x => np_equal x v = false) (items real) ->
  value_positive self = v /\
  BinaryPrediction.confusion_matrix self false =
    Ok (Some [[len fitted; 0]; [0; 0]]) /\
  BinaryPrediction.sensitivity self = Ok Nan /\
  BinaryPrediction.false_negative_rate self = Ok Nan /\
  BinaryPrediction.false_positive_rate self = Ok (true_divide 0 (len fitted)) /\
  BinaryPrediction.specificity self = Ok (true_divide (len fitted) (len fitted)).
Proof.
  intros Hinit Hfit Hreal.
  destruct (binary_init_over _ _ _ _ Hinit) as [Hover Hv].
  set (n := length (items fitted)).
  assert (Hzero : forall P : nat -> bool,
            (forall i, P i = false) -> count_indices n P = 0).
  { intros P HP. apply count_indices_zero. intros i _. apply HP. }
  assert (Hfull : forall P : nat -> bool,
            (forall i, P i = true) -> count_indices n P = n).
  { intros P HP. apply count_indices_full. intros i _. apply HP. }
  assert (HP : forall i, is_positive (items fitted) v i = false)
    by (intros i; apply is_positive_absent, Hfit).
  assert (HQ : forall i, is_positive (items real) v i = false)
    by (intros i; apply is_positive_absent, Hreal).
  split; [exact Hv |]. rewrite len_items. fold n.
  split; [| split; [| split; [| split]]].
  - rewrite (confusion_matrix_over self _ _ false Hover). cbv zeta.
    rewrite Hv. fold n. unfold is_negative.
    rewrite (Hfull (fun i => negb (is_positive (items fitted) v i) &&
                             negb (is_positive (items real) v i)))
      by (intros i; rewrite HP, HQ; reflexivity).
    rewrite !Hzero by (intros i; rewrite ?HP, ?HQ; reflexivity).
    reflexivity.
  - rewrite (sensitivity_over self _ _ Hover). cbv zeta. rewrite Hv. fold n.
    rewrite !Hzero by (intros i; rewrite ?HP, ?HQ; reflexivity). reflexivity.
  - rewrite (false_negative_rate_over self _ _ Hover). rewrite Hv. fold n.
    rewrite !Hzero by (intros i; rewrite ?HP, ?HQ, ?andb_false_r; reflexivity).
    reflexivity.
  - rewrite (false_positive_rate_over self _ _ Hover). rewrite Hv. fold n.
    unfold is_negative.
    rewrite (Hzero (fun i => is_positive (items fitted) v i &&
                             negb (is_positive (items real) v i)))
      by (intros i; rewrite HP; reflexivity).
    rewrite Hfull by (intros i; rewrite HQ; reflexivity). reflexivity.
  - rewrite (specificity_over self _ _ Hover). cbv zeta. rewrite Hv. fold n.
    unfold is_negative.
    rewrite !Hfull by (intros i; rewrite HP, HQ; reflexivity). reflexivity.
Qed.

Lemma value_positive_not_validated_witness :
  exists self : BinaryPrediction Z,
    BinaryPrediction.__init__ (PyList [1; 1; 0]%Z) (Some (PyList [1; 0; 0]%Z)) 7%Z =
      Ok self /\
    BinaryPrediction.confusion_matrix self false = Ok (Some [[3; 0]; [0; 0]]) /\
    BinaryPrediction.sensitivity self = Ok Nan /\
    BinaryPrediction.specificity self = Ok (Finite (3 # 3)).
Proof.
  eexists. split; [reflexivity |].
  destruct (value_positive_not_validated
              (PyList [1; 1; 0]%Z) (PyList [1; 0; 0]%Z) 7%Z _ eq_refl)
    as (_ & Hconf & Hsens & _ & _ & Hspec).
  - repeat constructor.
  - repeat constructor.
  - split; [exact Hconf |]. split; [exact Hsens | exact Hspec].
Defined.

(** ** BinaryPrediction: equal values and the diagonal *)

(** X11.  For a dtype whose [==] holds only of identical values, two equal
    values fall in the same class, so the number of positions counted by
    [percentage_correctly_classified] is at most the diagonal [tn + tp] of
    the confusion matrix.  The converse fails when the data hold more than
    two values: two different negatives agree in class and differ in
    value. *)
Theorem pcc_below_diagonal {A : Type} `{DType A}
    (self : BinaryPrediction A) (fitted real : list A) :
  (forall x y : A, np_equal x y = true -> x = y) ->
  over self fitted real ->
  exists equal tn fp fn tp,
    Prediction.percentage_correctly_classified self =
      Ok (true_divide equal (length fitted)) /\
    BinaryPrediction.confusion_matrix self false = Ok (Some [[tn; fp]; [fn; tp]]) /\
    equal <= tn + tp.
Proof.
  intros Heq Hover. do 5 eexists.
  split; [apply (pcc_over self fitted real Hover) |].
  split; [apply (confusion_matrix_over self fitted real false Hover) |].
  set (v := value_positive self). set (n := length fitted).
  set (P := is_positive fitted v). set (Q := is_positive real v).
  unfold is_negative. fold P Q.
  rewrite <- (count_indices_sum n
                (fun i => negb (P i) && negb (Q i)) (fun i => P i && Q i)
                (fun i => negb (P i) && negb (Q i) || P i && Q i))
    by (intros i _; destruct (P i), (Q i); reflexivity).
  apply count_indices_mono. intros i _ Hi. unfold equal_at in Hi.
  subst P Q. unfold is_positive.
  destruct (fitted !! i) as [f |]; [| discriminate].
  destruct (real !! i) as [r |]; [| discriminate].
  apply Heq in Hi. subst r. destruct (np_equal f v); reflexivity.
Qed.

Lemma pcc_below_diagonal_witness :
  exists (self : BinaryPrediction Z) (equal tn fp fn tp : nat),
    BinaryPrediction.__init__ (PyList [0; 1]%Z) (Some (PyList [2; 1]%Z)) 1%Z =
      Ok self /\
    Prediction.percentage_correctly_classified self = Ok (true_divide equal 2) /\
    BinaryPrediction.confusion_matrix self false = Ok (Some [[tn; fp]; [fn; tp]]) /\
    equal <= tn + tp /\
    Prediction.percentage_correctly_classified self = Ok (Finite (1 # 2)) /\
    BinaryPrediction.confusion_matrix self false = Ok (Some [[1; 0]; [0; 1]]).
Proof.
  destruct (pcc_below_diagonal
              {| base := Prediction._lists_to_nparray (PyList [0; 1]%Z)
                           (Some (PyList [2; 1]%Z));
                 value_positive := 1%Z |}
              [0; 1]%Z [2; 1]%Z)
    as (equal & tn & fp & fn & tp & Hpcc & Hconf & Hle).
  - intros x y Hxy. apply Z.eqb_eq. exact Hxy.
  - repeat split.
  - eexists _, equal, tn, fp, fn, tp. split; [reflexivity |].
    split; [exact Hpcc |]. split; [exact Hconf |]. split; [exact Hle |].
    split; reflexivity.
Defined.

(** ** Data frames *)

Lemma pd_DataFrame_aligned {A : Type} (columns : DataFrame A) (n : nat) :
  columns <> [] ->
  Forall (fun column => length (snd column) = n) columns ->
  pd_DataFrame (map (fun column => (fst column, Column (snd column))) columns) =
  Ok columns.
Proof.
  intros Hne Hall. unfold pd_DataFrame.
  assert (Hlengths : omap (fun item : string * entry A => column_length (snd item))
                       (map (fun column => (fst column, Column (snd column))) columns) =
                     map (fun _ => n) columns).
  { clear Hne. induction Hall as [| column columns Hn _ IH]; [reflexivity |].
    cbn [map omap list_omap snd column_length]. rewrite Hn.
    f_equal. exact IH. }
  rewrite Hlengths. destruct columns as [| column columns]; [contradiction |].
  cbn [map].
  assert (Hsame : forallb (Nat.eqb n) (map (fun _ => n) columns) = true).
  { clear. induction columns as [| c columns IH]; [reflexivity |].
    cbn [map forallb]. rewrite Nat.eqb_refl. exact IH. }
  rewrite Hsame. f_equal.
  assert (Hfill : forall l : DataFrame A,
            map (fun item : string * entry A => (fst item, fill n (snd item)))
              (map (fun column => (fst column, Column (snd column))) l) = l).
  { induction l as [| [name cells] l IH]; [reflexivity |].
    cbn [map fst snd fill]. rewrite IH. reflexivity. }
  apply (Hfill (column :: columns)).
Qed.

(** X12.  For a prediction over [fitted] and [real] of length N,
    [as_dataframe] returns, without an error, the three columns Fitted
    Values, Real Values and Prediction Matches, in this order and of N rows
    each; row [i] holds [fitted[i]], [real[i]] and whether the two are
    equal, and the Prediction Matches column is [matches()], whose mean is
    [percentage_correctly_classified]. *)
Theorem as_dataframe_rows {A : Type} `{DType A}
    (self : Prediction A) (fitted real : list A) :
  over self fitted real ->
  exists frame m,
    Prediction.as_dataframe self = Ok frame /\
    Prediction.matches self = Ok m /\
    frame = [("Fitted Values"%string, map Value fitted);
             ("Real Values"%string, map Value real);
             ("Prediction Matches"%string, map Flag m)] /\
    Forall (fun column => length (snd column) = length fitted) frame /\
    (forall i f r, fitted !! i = Some f -> real !! i = Some r ->
       row frame i =
       [("Fitted Values"%string, Some (Value f));
        ("Real Values"%string, Some (Value r));
        ("Prediction Matches"%string, Some (Flag (np_equal f r)))]) /\
    Prediction.percentage_correctly_classified self = Ok (np_mean m).
Proof.
  intros Hover.
  destruct (matches_over self fitted real Hover) as (m & Hm & Hlen & Hlookup & _).
  destruct (over_fields _ _ _ Hover) as (a & Ha & Hreal & Hfit & Hlen').
  set (frame := [("Fitted Values"%string, map (@Value A) fitted);
                 ("Real Values"%string, map (@Value A) real);
                 ("Prediction Matches"%string, map (@Flag A) m)]).
  assert (Hcolumns : Forall (fun column => length (snd column) = length fitted) frame).
  { repeat constructor; simpl; rewrite length_map; congruence. }
  exists frame, m.
  split.
  { unfold Prediction.as_dataframe. rewrite Hm, bind_Ok, Ha. simpl Prediction.field_entry.
    rewrite Hreal, Hfit.
    apply (pd_DataFrame_aligned frame (length fitted)); [discriminate | exact Hcolumns]. }
  split; [exact Hm |]. split; [reflexivity |]. split; [exact Hcolumns |].
  split.
  { intros i f r Hf Hr. unfold row, frame. cbn [map fst snd].
    rewrite !lookup_map, Hf, Hr.
    rewrite (Hlookup i) by (apply lookup_lt_is_Some; eauto).
    unfold equal_at. rewrite Hf, Hr. reflexivity. }
  unfold Prediction.percentage_correctly_classified, Prediction.matches in *.
  rewrite Hm. reflexivity.
Qed.

Lemma as_dataframe_rows_witness :
  exists (self : Prediction Z) (frame : DataFrame Z),
    Prediction.__init__ (PyList [1; 2; 3]%Z) (Some (PyList [1; 0; 3]%Z)) = Ok self /\
    Prediction.as_dataframe self = Ok frame /\
    row frame 1 =
      [("Fitted Values"%string, Some (Value 2%Z));
       ("Real Values"%string, Some (Value 0%Z));
       ("Prediction Matches"%string, Some (Flag false))].
Proof.
  destruct (as_dataframe_rows
              (Prediction._lists_to_nparray (PyList [1; 2; 3]%Z)
                 (Some (PyList [1; 0; 3]%Z)))
              [1; 2; 3]%Z [1; 0; 3]%Z)
    as (frame & m & Hframe & _ & _ & _ & Hrow & _).
  - repeat split.
  - eexists _, frame. split; [reflexivity |]. split; [exact Hframe |].
    apply (Hrow 1 2%Z 0%Z); reflexivity.
Defined.

Section NumericFrames.
Context {A : Type} `{TrueDivide A}.

Lemma divided_by_real_over (self : Prediction A) (fitted real : list A)
    (residuals : list A) :
  over self fitted real -> length residuals = length fitted ->
  NumericPrediction.divided_by_real residuals self =
  Ok (zip_with np_true_divide residuals real).
Proof.
  intros Hover Hres.
  destruct (over_fields _ _ _ Hover) as (a & Ha & <- & <- & Hlen).
  unfold NumericPrediction.divided_by_real. rewrite Ha.
  apply broadcast_aligned. congruence.
Qed.

End NumericFrames.

(** X13.  For a numeric prediction over [fitted] and [real] of length N,
    [as_dataframe] returns, without an error, five columns of N rows: the
    fitted and the real values, Prediction Matches, which is [matches()] at
    its default tolerance, Absolute difference, which is the signed residual
    [real[i] - fitted[i]] of [residuals()] and not its absolute value, and
    Relative difference, the residual divided by [real[i]].  Over int64 a
    real value of 0 does not fail the call: the quotient is infinite. *)
Theorem numeric_as_dataframe_rows :
  (forall (A : Type) (D : DType A) (N : Numeric A) (T : TrueDivide A)
          (self : Prediction A) (fitted real : list A),
     over self fitted real ->
     exists frame res m,
       NumericPrediction.as_dataframe self = Ok frame /\
       NumericPrediction.residuals self false false = Ok res /\
       NumericPrediction.matches self np_default_tolerance = Ok m /\
       map fst frame =
         ["Fitted Values"; "Real Values"; "Prediction Matches";
          "Absolute difference"; "Relative difference"]%string /\
       Forall (fun column => length (snd column) = length fitted) frame /\
       (forall i f r, fitted !! i = Some f -> real !! i = Some r ->
          res !! i = Some (np_subtract r f) /\
          m !! i = Some (np_less_equal (np_absolute (np_subtract r f))
                           np_default_tolerance) /\
          row frame i =
          [("Fitted Values"%string, Some (Value f));
           ("Real Values"%string, Some (Value r));
           ("Prediction Matches"%string,
            Some (Flag (np_less_equal (np_absolute (np_subtract r f))
                          np_default_tolerance)));
           ("Absolute difference"%string, Some (Value (np_subtract r f)));
           ("Relative difference"%string,
            Some (Float64 (np_true_divide (np_subtract r f) r)))])) /\
  (forall self : Prediction Z,
     over self [5; 5; 5]%Z [4; 0; 5]%Z ->
     NumericPrediction.as_dataframe self =
     Ok [("Fitted Values"%string, [Value 5; Value 5; Value 5]%Z);
         ("Real Values"%string, [Value 4; Value 0; Value 5]%Z);
         ("Prediction Matches"%string, [Flag false; Flag false; Flag true]);
         ("Absolute difference"%string, [Value (-1); Value (-5); Value 0]%Z);
         ("Relative difference"%string,
          [Float64 (-0.25); Float64 neg_infinity; Float64 0]%float)]).
Proof.
  split.
  - intros A D N T self fitted real Hover.
    assert (Hres : NumericPrediction.residuals self false false =
                   Ok (zip_with np_subtract real fitted)).
    { unfold NumericPrediction.residuals.
      rewrite (real_minus_fitted_over _ _ _ Hover). reflexivity. }
    assert (Hm : NumericPrediction.matches self np_default_tolerance =
                 Ok (map (fun d => np_less_equal (np_absolute d) np_default_tolerance)
                       (zip_with np_subtract real fitted))).
    { unfold NumericPrediction.matches.
      rewrite (real_minus_fitted_over _ _ _ Hover). reflexivity. }
    destruct (over_fields _ _ _ Hover) as (a & Ha & Hreal & Hfit & Hlen).
    assert (Hd : length (zip_with np_subtract real fitted) = length fitted)
      by (rewrite length_zip_with_l_eq; congruence).
    set (d := zip_with np_subtract real fitted) in *.
    set (frame :=
           [("Fitted Values"%string, map (@Value A) fitted);
            ("Real Values"%string, map (@Value A) real);
            ("Prediction Matches"%string,
             map (@Flag A)
               (map (fun x => np_less_equal (np_absolute x) np_default_tolerance) d));
            ("Absolute difference"%string, map (@Value A) d);
            ("Relative difference"%string,
             map (@Float64 A) (zip_with np_true_divide d real))]).
    assert (Hcolumns : Forall (fun column => length (snd column) = length fitted) frame).
    { repeat constructor; simpl;
        rewrite ?length_map, ?length_zip_with_l_eq; congruence. }
    exists frame, d, (map (fun x => np_less_equal (np_absolute x) np_default_tolerance) d).
    split.
    { unfold NumericPrediction.as_dataframe. rewrite Hres, bind_Ok, Hm, bind_Ok.
      rewrite (divided_by_real_over self fitted real d Hover Hd), bind_Ok.
      rewrite Ha. simpl Prediction.field_entry. rewrite Hreal, Hfit.
      apply (pd_DataFrame_aligned frame (length fitted)); [discriminate | exact Hcolumns]. }
    split; [exact Hres |]. split; [exact Hm |]. split; [reflexivity |].
    split; [exact Hcolumns |].
    intros i f r Hf Hr.
    assert (Hdi : d !! i = Some (np_subtract r f))
      by (unfold d; rewrite lookup_zip_with, Hr, Hf; reflexivity).
    split; [exact Hdi |].
    split; [rewrite lookup_map, Hdi; reflexivity |].
    unfold row, frame. cbn [map fst snd].
    rewrite !lookup_map, lookup_zip_with, Hdi, Hf, Hr. reflexivity.
  - intros self Hover. unfold NumericPrediction.as_dataframe, NumericPrediction.residuals,
      NumericPrediction.matches.
    rewrite (real_minus_fitted_over _ _ _ Hover), !bind_Ok.
    rewrite (divided_by_real_over self _ _ _ Hover) by reflexivity.
    destruct (over_fields _ _ _ Hover) as (a & Ha & Hreal & Hfit & _).
    rewrite bind_Ok, Ha. simpl Prediction.field_entry. rewrite Hreal, Hfit.
    vm_compute. reflexivity.
Qed.

Lemma numeric_as_dataframe_rows_witness :
  exists (self : Prediction Z) (frame : DataFrame Z),
    NumericPrediction.__init__ (PyList [5; 5; 5]%Z) (Some (PyList [4; 0; 5]%Z)) =
      Ok self /\
    NumericPrediction.as_dataframe self = Ok frame /\
    row frame 1 =
      [("Fitted Values"%string, Some (Value 5%Z));
       ("Real Values"%string, Some (Value 0%Z));
       ("Prediction Matches"%string, Some (Flag false));
       ("Absolute difference"%string, Some (Value (-5)%Z));
       ("Relative difference"%string, Some (Float64 neg_infinity))].
Proof.
  assert (Hover : over
            (Prediction._lists_to_nparray (PyList [5; 5; 5]%Z)
               (Some (PyList [4; 0; 5]%Z)))
            [5; 5; 5]%Z [4; 0; 5]%Z) by (repeat split).
  destruct (proj1 numeric_as_dataframe_rows Z _ _ _ _ _ _ Hover)
    as (frame & res & m & Hframe & _ & _ & _ & _ & _).
  pose proof (proj2 numeric_as_dataframe_rows _ Hover) as Hexample.
  rewrite Hframe in Hexample. injection Hexample as ->.
  eexists _, _. split; [reflexivity |]. split; [exact Hframe |]. reflexivity.
Defined.
